(** * vm_diskcheck: a shallow embedding of [vm_diskcheck.py]

    The development follows the script top-down: the text primitives the
    script borrows from the interpreter ([str.split], [str.strip],
    [str.rstrip], [int]), the per-line parser inside
    [VMDiskChecker.check_vm_disk], the probe of one host, the loop over all
    hosts, the summary counters and the exit status chosen by [main].

    Conventions.
    - A Python [str] is a [string]; a character stands for the code point
      of the same number (0 to 255).
    - A Python [int] is a [Z].
    - A host record (the dict read from the YAML file) is the record [VM];
      an absent key is [None].
    - The result dict of a probe is the variant [Result]; its ['status'] key
      is the function [status].
    - [subprocess.run] is a parameter of the model: it receives the argument
      vector, the timeout and the state of the outside world and yields an
      outcome together with the next state of the world. *)

From Stdlib Require Import ZArith List Bool Lia.
From Stdlib Require Import Strings.String Strings.Ascii.
From Stdlib Require Import Numbers.DecimalString.
From Stdlib Require Import Sorting.Permutation.
Import ListNotations.

Open Scope string_scope.
Open Scope Z_scope.

(** ** Interpreter primitives on text *)

Module Py.

(** [str.isspace] on one character: TAB, LF, VT, FF, CR, the separators
    FS, GS, RS, US, the space, NEL and the no-break space. *)
Definition isspace (c : ascii) : bool :=
  let n := N_of_ascii c in
  ((9 <=? n) && (n <=? 13) || (28 <=? n) && (n <=? 32)
   || (n =? 133) || (n =? 160))%N.

(** Truth value of a [str]: non-empty. *)
Definition truthy (s : string) : bool :=
  match s with
  | EmptyString => false
  | String _ _ => true
  end.

(** [a or b] on two strings. *)
Definition str_or (a b : string) : string :=
  if truthy a then a else b.

(** Removal of the leading characters that satisfy [p]. *)
Fixpoint lstrip_with (p : ascii -> bool) (s : string) : string :=
  match s with
  | EmptyString => EmptyString
  | String c s' => if p c then lstrip_with p s' else s
  end.

(** Removal of the trailing characters that satisfy [p]. *)
Fixpoint rstrip_with (p : ascii -> bool) (s : string) : string :=
  match s with
  | EmptyString => EmptyString
  | String c s' =>
      match rstrip_with p s' with
      | EmptyString => if p c then EmptyString else String c EmptyString
      | String _ _ as r => String c r
      end
  end.

(** [s.strip()] *)
Definition strip (s : string) : string :=
  rstrip_with isspace (lstrip_with isspace s).

(** [s.rstrip(chars)] for a one-character [chars]. *)
Definition rstrip_char (ch : ascii) (s : string) : string :=
  rstrip_with (Ascii.eqb ch) s.

(** Prefixing the first word of a word list with one more character. *)
Definition cons_head (c : ascii) (ws : list string) : list string :=
  match ws with
  | [] => [String c EmptyString]
  | w :: ws' => String c w :: ws'
  end.

(** [s.split()]: the maximal runs of non-space characters, in order. *)
Fixpoint split (s : string) : list string :=
  match s with
  | EmptyString => []
  | String c s' =>
      if isspace c then split s'
      else
        match s' with
        | EmptyString => [String c EmptyString]
        | String c' _ =>
            if isspace c' then String c EmptyString :: split s'
            else cons_head c (split s')
        end
  end.

Definition newline : ascii := ascii_of_nat 10.

(** [s.split('\n')]: the pieces between line feeds; never an empty list. *)
Fixpoint split_lines (s : string) : list string :=
  match s with
  | EmptyString => [EmptyString]
  | String c s' =>
      if Ascii.eqb c newline then EmptyString :: split_lines s'
      else cons_head c (split_lines s')
  end.

(** ['\n'.join(lines)] *)
Fixpoint join_lines (lines : list string) : string :=
  match lines with
  | [] => EmptyString
  | [l] => l
  | l :: rest => l ++ String newline (join_lines rest)
  end.

(** The value of a decimal digit character. *)
Definition digit_value (c : ascii) : option Z :=
  let n := N_of_ascii c in
  if ((48 <=? n) && (n <=? 57))%N then Some (Z.of_N n - 48) else None.

Definition underscore : ascii := "_"%char.

(** The digit run of an integer literal.  A single underscore may separate
    two digits; [prev] records that the previous character was one. *)
Fixpoint int_digits (acc : Z) (prev : bool) (s : string) : option Z :=
  match s with
  | EmptyString => if prev then None else Some acc
  | String c s' =>
      if Ascii.eqb c underscore then
        if prev then None else int_digits acc true s'
      else
        match digit_value c with
        | Some d => int_digits (10 * acc + d) false s'
        | None => None
        end
  end.

(** [sys.get_int_max_str_digits()] as the interpreter sets it by default:
    the largest number of digits a decimal literal may have. *)
Definition int_max_str_digits : Z := 4300.

(** The number of digits of the digit run at the head of [s], underscores
    not counted. *)
Fixpoint digit_run (s : string) : Z :=
  match s with
  | EmptyString => 0
  | String c s' =>
      if Ascii.eqb c underscore then digit_run s'
      else
        match digit_value c with
        | Some _ => 1 + digit_run s'
        | None => 0
        end
  end.

(** An unsigned literal: at least one digit, no leading underscore, and no
    more digits than the cap allows. *)
Definition int_unsigned (s : string) : option Z :=
  match s with
  | EmptyString => None
  | String c _ =>
      if Ascii.eqb c underscore then None
      else if int_max_str_digits <? digit_run s then None
      else int_digits 0 false s
  end.

Definition int_signed (s : string) : option Z :=
  match s with
  | String "+"%char s' => int_unsigned s'
  | String "-"%char s' => option_map Z.opp (int_unsigned s')
  | _ => int_unsigned s
  end.

(** The blanks [int] skips around a literal: TAB, LF, VT, FF, CR, space,
    NEL and the no-break space. *)
Definition int_isspace (c : ascii) : bool :=
  let n := N_of_ascii c in
  ((9 <=? n) && (n <=? 13) || (n =? 32) || (n =? 133) || (n =? 160))%N.

(** [int(s)] in base ten; [None] stands for [ValueError], the one raised
    for a literal of more than [int_max_str_digits] digits included. *)
Definition int (s : string) : option Z :=
  int_signed (rstrip_with int_isspace (lstrip_with int_isspace s)).

(** [str(n)] for an [int]. *)
Definition str_of_int (n : Z) : string :=
  NilZero.string_of_int (Z.to_int n).

(** [parts[-k:]] *)
Definition last_n {A : Type} (k : nat) (l : list A) : list A :=
  skipn (List.length l - k) l.

End Py.

(** ** Data model *)

(** A host record of the configuration: the keys [name], [host], [user],
    [port] and [ssh_key]; [None] is a key that is not there. *)
Record VM : Type := mkVM {
  vm_name : option string;
  vm_host : option string;
  vm_user : option string;
  vm_port : option Z;
  vm_ssh_key : option string
}.

(** One entry of the ['disks'] list. *)
Record Disk : Type := mkDisk {
  device : string;
  size : string;
  used : string;
  available : string;
  usage_percent : Z;
  mount : string;
  warning : bool
}.

(** The dict returned by [check_vm_disk]. *)
Inductive Result : Type :=
| Success (name host : string) (disks : list Disk)
| Failure (name host error : string).

(** The ['status'] key. *)
Definition status (r : Result) : string :=
  match r with
  | Success _ _ _ => "success"
  | Failure _ _ _ => "error"
  end.

(** The keys of the dict, in insertion order. *)
Definition keys (r : Result) : list string :=
  match r with
  | Success _ _ _ => ["name"; "host"; "status"; "disks"]
  | Failure _ _ _ => ["name"; "host"; "status"; "error"]
  end.

(** Truth value of a dict: it has a key. *)
Definition dict_truthy (r : Result) : bool :=
  negb (Nat.eqb (List.length (keys r)) 0).

(** The ['disks'] key (present on a success only). *)
Definition result_disks (r : Result) : list Disk :=
  match r with
  | Success _ _ ds => ds
  | Failure _ _ _ => []
  end.

(** What [subprocess.run] can do: return a completed process, raise
    [TimeoutExpired], or raise another exception [e] with [str(e) = msg]. *)
Inductive RunOutcome : Type :=
| Completed (returncode : Z) (stdout stderr : string)
| TimeoutExpired
| Raised (msg : string).

(** ** The line parser of [check_vm_disk] *)

(** What the loop body does with one line. *)
Inductive LineOutcome : Type :=
| Entry (d : Disk)       (* [disks.append(...)] *)
| Ignored                (* empty line, or fewer than six parts *)
| Malformed.             (* [ValueError]: warning on stderr, [continue] *)

Definition parse_line (threshold : Z) (line : string) : LineOutcome :=
  if Py.truthy line then
    let parts := Py.split line in
    if (6 <=? List.length parts)%nat then
      let usage_str := Py.rstrip_char "%"%char (nth 4 parts "") in
      match Py.int usage_str with
      | Some usage_percent =>
          let parts :=
            if (6 <? List.length parts)%nat then Py.last_n 6 parts else parts in
          Entry {| device := nth 0 parts "";
                   size := nth 1 parts "";
                   used := nth 2 parts "";
                   available := nth 3 parts "";
                   usage_percent := usage_percent;
                   mount := nth 5 parts "";
                   warning := (threshold <=? usage_percent) |}
      | None => Malformed
      end
    else Ignored
  else Ignored.

(** The diagnostic printed for a malformed line. *)
Definition parse_warning (line : string) : string :=
  "Warning: Failed to parse disk line: " ++ line.

(** One turn of the loop: [acc] is the list [disks] so far paired with what
    has been printed on stderr so far. *)
Definition parse_step (threshold : Z) (acc : list Disk * list string)
    (line : string) : list Disk * list string :=
  match parse_line threshold line with
  | Entry d => ((fst acc ++ [d])%list, snd acc)
  | Ignored => acc
  | Malformed => (fst acc, (snd acc ++ [parse_warning line])%list)
  end.

(** [for line in result.stdout.strip().split('\n'): ...] starting from
    [disks = []]. *)
Definition parse_output (threshold : Z) (stdout : string)
    (err : list string) : list Disk * list string :=
  fold_left (parse_step threshold) (Py.split_lines (Py.strip stdout)) ([], err).

(** The entries a list of lines contributes, line by line. *)
Definition line_disks (threshold : Z) (line : string) : list Disk :=
  match parse_line threshold line with
  | Entry d => [d]
  | _ => []
  end.

(** ** Probing one host, and all of them *)

(** [d.get(key, default)] on a key that may be absent. *)
Definition dict_get {A : Type} (o : option A) (default : A) : A :=
  match o with
  | Some v => v
  | None => default
  end.

(** [x or b] where [x] is a string or [None]. *)
Definition opt_str_or (x : option string) (b : string) : string :=
  match x with
  | Some s => Py.str_or s b
  | None => b
  end.

(** The remote command. *)
Definition disk_cmd : string :=
  "df -h | grep -E '^/dev/' | awk '{print $1,$2,$3,$4,$5,$6}'".

(** The argument vector handed to [subprocess.run]. *)
Definition ssh_cmd (host user : string) (port : Z) (ssh_key : string)
    : list string :=
  (["ssh"; "-o"; "StrictHostKeyChecking=no"; "-o"; "ConnectTimeout=10"]
   ++ (if Py.truthy ssh_key then ["-i"; ssh_key] else [])
   ++ ["-p"; Py.str_of_int port; (user ++ "@" ++ host)%string]
   ++ [disk_cmd])%list.

Section Checker.

(** The world outside the process, and [subprocess.run] acting on it:
    argument vector, timeout in seconds, world before; outcome, world
    after. *)
Variable World : Type.
Variable subprocess_run : list string -> Z -> World -> RunOutcome * World.

(** The state threaded through a run: the outside world and the lines
    printed on stderr so far. *)
Record State : Type := mkState {
  world : World;
  stderr_log : list string
}.

(** The result returned when the record has no usable host. *)
Definition missing_host (name : option string) : Result :=
  Failure (opt_str_or name "Unknown") "N/A" "Missing required parameter: host".

(** [VMDiskChecker.check_vm_disk]; [threshold] is [self.threshold]. *)
Definition check_vm_disk (threshold : Z) (vm : VM) (st : State)
    : Result * State :=
  let host := vm_host vm in
  let user := dict_get (vm_user vm) "root" in
  let port := dict_get (vm_port vm) 22 in
  let name := match vm_name vm with Some n => Some n | None => host end in
  let ssh_key := dict_get (vm_ssh_key vm) "" in
  match host, name with
  | Some host, Some name =>
      (* the key is there: [not host] is the test for the empty string *)
      if negb (Py.truthy host) then (missing_host (Some name), st)
      else
        let (outcome, w) :=
          subprocess_run (ssh_cmd host user port ssh_key) 30 (world st) in
        let st := {| world := w; stderr_log := stderr_log st |} in
        match outcome with
        | Completed returncode stdout stderr =>
            if negb (returncode =? 0) then
              (Failure name host
                 (Py.str_or (Py.strip stderr) "Connection failed"), st)
            else
              let (disks, err) :=
                parse_output threshold stdout (stderr_log st) in
              (Success name host disks,
               {| world := world st; stderr_log := err |})
        | TimeoutExpired => (Failure name host "Connection timeout", st)
        | Raised msg => (Failure name host msg, st)
        end
  | _, _ =>
      (* [host] is [None], and so is [name] unless the record has one *)
      (missing_host name, st)
  end.

(** The loop of [check_all_vms]; [results] is the list built so far. *)
Fixpoint check_all_loop (threshold : Z) (vms : list VM)
    (results : list Result) (st : State) : list Result * State :=
  match vms with
  | [] => (results, st)
  | vm :: rest =>
      let (result, st') := check_vm_disk threshold vm st in
      check_all_loop threshold rest
        (if dict_truthy result then results ++ [result] else results)%list st'
  end.

(** [VMDiskChecker.check_all_vms]; [vms] is [self.vms]. *)
Definition check_all_vms (threshold : Z) (vms : list VM) (st : State)
    : list Result * State :=
  check_all_loop threshold vms [] st.

End Checker.

Arguments mkState {World}.
Arguments world {World}.
Arguments stderr_log {World}.
Arguments check_vm_disk {World}.
Arguments check_all_loop {World}.
Arguments check_all_vms {World}.

(** ** Summary and exit status *)

(** [sum(...)] of a list of integers. *)
Definition py_sum (l : list Z) : Z := fold_left Z.add l 0.

(** [r['status'] == 'error'] *)
Definition is_error (r : Result) : bool := String.eqb (status r) "error".

(** [r['status'] == 'success' and any(d['warning'] for d in r['disks'])] *)
Definition is_warning (r : Result) : bool :=
  String.eqb (status r) "success" && existsb warning (result_disks r).

(** [VMDiskChecker.get_summary]: [(total, warnings, errors)]. *)
Definition get_summary (results : list Result) : Z * Z * Z :=
  let total := Z.of_nat (List.length results) in
  let errors := py_sum (map (fun _ => 1) (filter is_error results)) in
  let warnings := py_sum (map (fun _ => 1) (filter is_warning results)) in
  (total, warnings, errors).

(** The status [main] exits with once the results are in. *)
Definition main_exit (results : list Result) : Z :=
  let '(total, warnings, errors) := get_summary results in
  if errors >? 0 then 2
  else if warnings >? 0 then 1
  else 0.

(** ** Vocabulary of the properties *)

(** Every character of [s] satisfies [p]. *)
Fixpoint all_chars (p : ascii -> bool) (s : string) : bool :=
  match s with
  | EmptyString => true
  | String c s' => p c && all_chars p s'
  end.

(** A single line: no line feed inside. *)
Definition one_line (s : string) : bool :=
  all_chars (fun c => negb (Ascii.eqb c Py.newline)) s.

(** Appending one character to the last line of a list of lines. *)
Fixpoint snoc_last (c : ascii) (ls : list string) : list string :=
  match ls with
  | [] => [String c EmptyString]
  | [l] => [l ++ String c EmptyString]
  | l :: ls' => l :: snoc_last c ls'
  end.

(** The usage field the loop body reads: [parts[4]] of the line. *)
Definition usage_field (line : string) : string :=
  nth 4 (Py.split line) "".

(** The usage field as the specification reads it: the fifth of the last
    six parts of the line. *)
Definition canonical_usage_field (line : string) : string :=
  nth 4 (Py.last_n 6 (Py.split line)) "".

(** A malformed line, as the specification reads it: fewer than six parts,
    or a usage field that is no integer once its trailing percent signs
    are gone. *)
Definition malformed (line : string) : Prop :=
  (List.length (Py.split line) < 6)%nat
  \/ Py.int (Py.rstrip_char "%"%char (canonical_usage_field line)) = None.

(** The reading of the specification for a line of six parts or more: the
    last six parts are the canonical fields, the usage being the fifth of
    them. *)
Definition canonical_line (threshold : Z) (line : string) : LineOutcome :=
  let parts := Py.split line in
  if (6 <=? List.length parts)%nat then
    let fields := Py.last_n 6 parts in
    match Py.int (Py.rstrip_char "%"%char (nth 4 fields "")) with
    | Some n =>
        Entry {| device := nth 0 fields "";
                 size := nth 1 fields "";
                 used := nth 2 fields "";
                 available := nth 3 fields "";
                 usage_percent := n;
                 mount := nth 5 fields "";
                 warning := (threshold <=? n) |}
    | None => Malformed
    end
  else Ignored.

(** Results by shape rather than by their ['status'] text. *)
Definition failed (r : Result) : bool :=
  match r with
  | Failure _ _ _ => true
  | Success _ _ _ => false
  end.

Definition flagged (r : Result) : bool :=
  match r with
  | Success _ _ ds => existsb warning ds
  | Failure _ _ _ => false
  end.

(** How many elements of [l] satisfy [p]. *)
Fixpoint count_if {A : Type} (p : A -> bool) (l : list A) : nat :=
  match l with
  | [] => O
  | x :: l' => if p x then S (count_if p l') else count_if p l'
  end.

(** The probes of [vms] one after the other, each in the state its
    predecessor left. *)
Fixpoint probe_seq {World : Type}
    (run : list string -> Z -> World -> RunOutcome * World)
    (threshold : Z) (vms : list VM) (st : State World)
    : list Result * State World :=
  match vms with
  | [] => ([], st)
  | vm :: rest =>
      let (r, st') := check_vm_disk run threshold vm st in
      let (rs, st'') := probe_seq run threshold rest st' in
      (r :: rs, st'')
  end.

(** Integer literals written out: an optional sign and decimal digits. *)
Inductive Sign : Type := NoSign | Plus | Minus.

Definition sign_text (s : Sign) : string :=
  match s with
  | NoSign => ""
  | Plus => "+"
  | Minus => "-"
  end.

Definition sign_apply (s : Sign) (n : Z) : Z :=
  match s with
  | Minus => - n
  | _ => n
  end.

Definition digit_char (d : nat) : ascii := ascii_of_nat (48 + d).

Arguments digit_char : simpl never.

Fixpoint digits_text (ds : list nat) : string :=
  match ds with
  | [] => EmptyString
  | d :: ds' => String (digit_char d) (digits_text ds')
  end.

(** The number a digit sequence denotes, most significant digit first. *)
Definition digits_value (ds : list nat) : Z :=
  fold_left (fun acc d => 10 * acc + Z.of_nat d) ds 0.

(** [k] percent signs. *)
Fixpoint percents (k : nat) : string :=
  match k with
  | O => EmptyString
  | S k' => String "%"%char (percents k')
  end.

(** A scripted transport for the examples: the world counts the calls; the
    first call succeeds with two device lines, every later call times
    out. *)
Module Demo.

Definition stdout_a : string :=
  "/dev/sda1 100G 45G 50G 47% /
/dev/sda2 50G 42G 5G 89% /var
".

Definition run (cmd : list string) (timeout : Z) (calls : nat)
    : RunOutcome * nat :=
  match calls with
  | O => (Completed 0 stdout_a "", S calls)
  | _ => (TimeoutExpired, S calls)
  end.

(** A transport whose remote command always exits with status 255. *)
Definition refuse (cmd : list string) (timeout : Z) (calls : nat)
    : RunOutcome * nat :=
  (Completed 255 "" "Connection refused
", S calls).

Definition vm1 : VM :=
  mkVM (Some "Test VM 1") (Some "192.168.1.10") (Some "admin") (Some 22) None.

Definition vm2 : VM :=
  mkVM (Some "Test VM 2") (Some "192.168.1.20") (Some "root") None None.

Definition start : State nat := mkState O [].

End Demo.

(** ** The text report *)

(** [s * n] for a string [s]. *)
Fixpoint str_mul (s : string) (n : nat) : string :=
  match n with
  | O => EmptyString
  | S n' => s ++ str_mul s n'
  end.

(** The ['name'], ['host'] and ['error'] keys of a result. *)
Definition result_name (r : Result) : string :=
  match r with
  | Success name _ _ => name
  | Failure name _ _ => name
  end.

Definition result_host (r : Result) : string :=
  match r with
  | Success _ host _ => host
  | Failure _ host _ => host
  end.

Definition result_error (r : Result) : string :=
  match r with
  | Success _ _ _ => ""
  | Failure _ _ error => error
  end.

(** The inner loop body of [format_output_text]: the four lines of one
    disk, appended to [output].  The pictograms of the source are kept as
    the bytes of their UTF-8 encoding. *)
Definition text_disk (output : list string) (disk : Disk) : list string :=
  let status := if warning disk then "⚠️  WARNING" else "✓ OK" in
  let output :=
    (output ++ [("  " ++ status ++ " " ++ mount disk)%string])%list in
  let output := (output ++ [("    Device: " ++ device disk)%string])%list in
  let output :=
    (output ++ [("    Size: " ++ size disk ++ ", Used: " ++ used disk
                 ++ ", Available: " ++ available disk)%string])%list in
  (output
   ++ [("    Usage: " ++ Py.str_of_int (usage_percent disk) ++ "%")%string])%list.

(** The outer loop body: the block of one result, appended to [output]. *)
Definition text_result (output : list string) (result : Result)
    : list string :=
  let output :=
    (output ++ [("VM: " ++ result_name result
                 ++ " (" ++ result_host result ++ ")")%string])%list in
  let output := (output ++ [str_mul "-" 80])%list in
  let output :=
    if String.eqb (status result) "error" then
      (output ++ [("  ❌ ERROR: " ++ result_error result)%string])%list
    else fold_left text_disk (result_disks result) output in
  (output ++ [""])%list.

(** The list [output] at the end of [format_output_text]. *)
Definition text_lines (results : list Result) : list string :=
  fold_left text_result results
    [str_mul "=" 80; "VM Disk Space Check Results"; str_mul "=" 80; ""].

(** [VMDiskChecker.format_output_text] *)
Definition format_output_text (results : list Result) : string :=
  Py.join_lines (text_lines results).

(** ** The entry point *)

(** The choices of [--format]. *)
Inductive Format : Type := FormatText | FormatJson.

(** The parsed command line: [args.config], [args.threshold],
    [args.format]. *)
Record Args : Type := mkArgs {
  arg_config : string;
  arg_threshold : Z;
  arg_format : Format
}.

(** What opening and loading the configuration file can do: yield a
    mapping, of which the model keeps the ['vms'] key ([None] when the key
    is not there), raise [FileNotFoundError], or raise a [yaml.YAMLError]
    [e] with [str(e) = msg]. *)
Inductive ConfigOutcome : Type :=
| ConfigLoaded (vms : option (list VM))
| ConfigNotFound
| ConfigYamlError (msg : string).

(** [print(msg, file=sys.stderr)] *)
Definition print_err {World : Type} (st : State World) (msg : string)
    : State World :=
  {| world := world st; stderr_log := (stderr_log st ++ [msg])%list |}.

Section Main.

Variable World : Type.
Variable subprocess_run : list string -> Z -> World -> RunOutcome * World.

(** Reading the configuration file at a path, in a world. *)
Variable read_config : string -> World -> ConfigOutcome * World.

(** [json.dumps(results, indent=2)] *)
Variable json_dumps : list Result -> string.

(** [VMDiskChecker.format_output_json] *)
Definition format_output_json (results : list Result) : string :=
  json_dumps results.

(** [VMDiskChecker._load_config]: the host records, or the status of
    [sys.exit]. *)
Definition load_config (config_file : string) (st : State World)
    : (list VM + Z) * State World :=
  let (outcome, w) := read_config config_file (world st) in
  let st := {| world := w; stderr_log := stderr_log st |} in
  match outcome with
  | ConfigLoaded vms => (inl (dict_get vms []), st)
  | ConfigNotFound =>
      (inr 1,
       print_err st
         ("Error: Configuration file '" ++ config_file ++ "' not found."))
  | ConfigYamlError e =>
      (inr 1, print_err st ("Error parsing YAML configuration: " ++ e))
  end.

(** A finished run: the exit status, what was printed on stdout, and the
    final state (outside world and stderr). *)
Record Process : Type := mkProcess {
  exit_status : Z;
  stdout_log : list string;
  final_state : State World
}.

(** [main] once the command line is parsed. *)
Definition main (args : Args) (st : State World) : Process :=
  if negb ((0 <? arg_threshold args) && (arg_threshold args <=? 100)) then
    {| exit_status := 1;
       stdout_log := [];
       final_state := print_err st "Error: Threshold must be between 1 and 100" |}
  else
    match load_config (arg_config args) st with
    | (inr code, st) =>
        {| exit_status := code; stdout_log := []; final_state := st |}
    | (inl vms, st) =>
        let (results, st) :=
          check_all_vms subprocess_run (arg_threshold args) vms st in
        let report :=
          match arg_format args with
          | FormatJson => format_output_json results
          | FormatText => format_output_text results
          end in
        {| exit_status := main_exit results;
           stdout_log := [report];
           final_state := st |}
    end.

End Main.

Arguments load_config {World}.
Arguments mkProcess {World}.
Arguments exit_status {World}.
Arguments stdout_log {World}.
Arguments final_state {World}.
Arguments main {World}.

(** ** Vocabulary of the further properties *)

(** A word: not empty, no blank inside. *)
Definition is_token (w : string) : bool :=
  Py.truthy w && all_chars (fun c => negb (Py.isspace c)) w.

(** A line of six parts or more whose usage field is no integer. *)
Definition unparsable (line : string) : bool :=
  (6 <=? List.length (Py.split line))%nat
  && match Py.int (Py.rstrip_char "%"%char (usage_field line)) with
     | Some _ => false
     | None => true
     end.

(** An entry with its flag cleared. *)
Definition unflag (d : Disk) : Disk :=
  {| device := device d; size := size d; used := used d;
     available := available d; usage_percent := usage_percent d;
     mount := mount d; warning := false |}.

(** Two results that differ at most in the flags of their entries, the
    second flagging no entry the first does not flag. *)
Definition fewer_flags (r1 r2 : Result) : Prop :=
  match r1, r2 with
  | Failure n1 h1 e1, Failure n2 h2 e2 => n1 = n2 /\ h1 = h2 /\ e1 = e2
  | Success n1 h1 ds1, Success n2 h2 ds2 =>
      n1 = n2 /\ h1 = h2
      /\ Forall2 (fun d1 d2 =>
                    unflag d1 = unflag d2
                    /\ (warning d2 = true -> warning d1 = true)) ds1 ds2
  | _, _ => False
  end.

(** The argument vector of the probe of a record, if the probe runs the
    command at all. *)
Definition vm_command (vm : VM) : option (list string) :=
  match vm_host vm with
  | Some host =>
      if Py.truthy host then
        Some (ssh_cmd host (dict_get (vm_user vm) "root")
                (dict_get (vm_port vm) 22) (dict_get (vm_ssh_key vm) ""))
      else None
  | None => None
  end.

(** The commands of a list of records, in order. *)
Definition vm_commands (vms : list VM) : list (list string) :=
  flat_map (fun vm => match vm_command vm with
                      | Some cmd => [cmd]
                      | None => []
                      end) vms.

(** The layout of the text report: the banner, then one block for each
    result. *)
Definition banner : list string :=
  [str_mul "=" 80; "VM Disk Space Check Results"; str_mul "=" 80; ""].

Definition disk_block (disk : Disk) : list string :=
  [ "  " ++ (if warning disk then "⚠️  WARNING" else "✓ OK")
    ++ " " ++ mount disk;
    "    Device: " ++ device disk;
    "    Size: " ++ size disk ++ ", Used: " ++ used disk
    ++ ", Available: " ++ available disk;
    "    Usage: " ++ Py.str_of_int (usage_percent disk) ++ "%" ].

Definition result_block (r : Result) : list string :=
  match r with
  | Failure name host error =>
      [ "VM: " ++ name ++ " (" ++ host ++ ")"; str_mul "-" 80;
        "  ❌ ERROR: " ++ error; "" ]
  | Success name host disks =>
      ([ ("VM: " ++ name ++ " (" ++ host ++ ")")%string; str_mul "-" 80 ]
       ++ flat_map disk_block disks ++ [""])%list
  end.

(** No line feed in any text of a result. *)
Definition disk_one_line (d : Disk) : bool :=
  one_line (device d) && one_line (size d) && one_line (used d)
  && one_line (available d) && one_line (mount d).

Definition result_one_line (r : Result) : bool :=
  match r with
  | Failure name host error =>
      one_line name && one_line host && one_line error
  | Success name host disks =>
      one_line name && one_line host && forallb disk_one_line disks
  end.

(** The start of the status line of a flagged disk. *)
Definition warning_prefix : string := "  ⚠️  WARNING ".

(** ** Unit tests of the repository, replayed on the model *)

Example test_check_vm_disk_success :
  fst (check_vm_disk Demo.run 80 Demo.vm1 Demo.start)
  = Success "Test VM 1" "192.168.1.10"
      [ mkDisk "/dev/sda1" "100G" "45G" "50G" 47 "/" false;
        mkDisk "/dev/sda2" "50G" "42G" "5G" 89 "/var" true ].
Proof. reflexivity. Qed.

Example test_check_vm_disk_connection_error :
  fst (check_vm_disk Demo.refuse 80 Demo.vm1 Demo.start)
  = Failure "Test VM 1" "192.168.1.10" "Connection refused".
Proof. reflexivity. Qed.

Example test_check_all_vms :
  map status (fst (check_all_vms Demo.run 80 [Demo.vm1; Demo.vm2] Demo.start))
  = ["success"; "error"].
Proof. reflexivity. Qed.

Example test_scenario_summary :
  let results := fst (check_all_vms Demo.run 80 [Demo.vm1; Demo.vm2] Demo.start) in
  get_summary results = (2, 1, 1) /\ main_exit results = 2.
Proof. split; reflexivity. Qed.

Example test_ssh_cmd :
  ssh_cmd "192.168.1.10" "admin" 22 "" =
  ["ssh"; "-o"; "StrictHostKeyChecking=no"; "-o"; "ConnectTimeout=10";
   "-p"; "22"; "admin@192.168.1.10"; disk_cmd].
Proof. reflexivity. Qed.

(** ** Lemmas on the text primitives *)

Section TextLemmas.

Lemma split_lines_nonempty (s : string) : Py.split_lines s <> [].
Proof.
  induction s as [|c s IH]; simpl; [discriminate|].
  destruct (Ascii.eqb c Py.newline); [discriminate|].
  destruct (Py.split_lines s); [contradiction|discriminate].
Qed.

Lemma split_space_head (c : ascii) (s : string) :
  Py.isspace c = true -> Py.split (String c s) = Py.split s.
Proof. intros H; simpl; now rewrite H. Qed.

Lemma split_space_last (c : ascii) (s : string) :
  Py.isspace c = true -> Py.split (s ++ String c "") = Py.split s.
Proof.
  intros Hc; induction s as [|a s IH]; simpl.
  - now rewrite Hc.
  - destruct (Py.isspace a) eqn:Ha; [exact IH|].
    destruct s as [|b s]; simpl.
    + now rewrite Hc.
    + simpl in IH. destruct (Py.isspace b) eqn:Hb.
      * now rewrite IH.
      * now rewrite IH.
Qed.

Lemma split_lines_one_line (l : string) :
  one_line l = true -> Py.split_lines l = [l].
Proof.
  unfold one_line; induction l as [|c l IH]; simpl; [reflexivity|].
  intros H; apply andb_true_iff in H as [Hc Hl].
  apply negb_true_iff in Hc; rewrite Hc, (IH Hl); reflexivity.
Qed.

Lemma cons_head_app (c : ascii) (l1 l2 : list string) :
  l1 <> [] -> Py.cons_head c (l1 ++ l2) = (Py.cons_head c l1 ++ l2)%list.
Proof. destruct l1; [contradiction|reflexivity]. Qed.

Lemma split_lines_app (a b : string) :
  Py.split_lines (a ++ String Py.newline b)
  = (Py.split_lines a ++ Py.split_lines b)%list.
Proof.
  induction a as [|c a IH]; simpl.
  - reflexivity.
  - destruct (Ascii.eqb c Py.newline).
    + now rewrite IH.
    + rewrite IH; apply cons_head_app, split_lines_nonempty.
Qed.

Lemma split_lines_join (lines : list string) :
  lines <> [] -> forallb one_line lines = true ->
  Py.split_lines (Py.join_lines lines) = lines.
Proof.
  induction lines as [|l rest IH]; [contradiction|].
  intros _ H; simpl in H; apply andb_true_iff in H as [Hl Hrest].
  destruct rest as [|l' rest'].
  - simpl; now apply split_lines_one_line.
  - change (Py.join_lines (l :: l' :: rest'))
      with (l ++ String Py.newline (Py.join_lines (l' :: rest'))).
    rewrite split_lines_app, split_lines_one_line by assumption.
    rewrite IH; [reflexivity|discriminate|assumption].
Qed.

Lemma split_lines_snoc (c : ascii) (s : string) :
  Py.split_lines (s ++ String c "")
  = if Ascii.eqb c Py.newline then (Py.split_lines s ++ [""])%list
    else snoc_last c (Py.split_lines s).
Proof.
  induction s as [|a s IH]; simpl.
  - destruct (Ascii.eqb c Py.newline); reflexivity.
  - rewrite IH; pose proof (split_lines_nonempty s) as Hne.
    destruct (Ascii.eqb a Py.newline), (Ascii.eqb c Py.newline);
      destruct (Py.split_lines s) as [|l [|l' ls]];
      try contradiction; reflexivity.
Qed.

Lemma rstrip_with_decomp (p : ascii -> bool) (s : string) :
  exists ws, s = Py.rstrip_with p s ++ ws /\ all_chars p ws = true.
Proof.
  induction s as [|c s (ws & Hs & Hws)]; simpl.
  - exists ""; split; reflexivity.
  - destruct (Py.rstrip_with p s) as [|b r] eqn:Hr.
    + simpl in Hs; subst s. destruct (p c) eqn:Hc.
      * exists (String c ws); simpl; now rewrite Hc.
      * exists ws; split; [reflexivity|assumption].
    + exists ws; split; [|assumption]. simpl. now rewrite Hs at 1.
Qed.

Lemma lstrip_with_decomp (p : ascii -> bool) (s : string) :
  exists ws, s = ws ++ Py.lstrip_with p s /\ all_chars p ws = true.
Proof.
  induction s as [|c s (ws & Hs & Hws)]; simpl.
  - exists ""; split; reflexivity.
  - destruct (p c) eqn:Hc.
    + exists (String c ws); simpl; rewrite Hc; split; [now rewrite Hs at 1|assumption].
    + exists ""; split; reflexivity.
Qed.

Lemma append_assoc (a b c : string) : (a ++ b) ++ c = a ++ (b ++ c).
Proof. induction a as [|x a IH]; simpl; [reflexivity|now rewrite IH]. Qed.

Lemma append_nil_r (a : string) : a ++ "" = a.
Proof. induction a as [|x a IH]; simpl; [reflexivity|now rewrite IH]. Qed.

End TextLemmas.

(** ** Lemmas on the line parser *)

Section ParserLemmas.

Variable threshold : Z.

(** The loop body looks at a line through its parts only. *)
Lemma parse_line_split (l1 l2 : string) :
  Py.split l1 = Py.split l2 -> parse_line threshold l1 = parse_line threshold l2.
Proof.
  intros H; unfold parse_line; rewrite <- H.
  destruct l1 as [|a l1], l2 as [|b l2]; try reflexivity.
  rewrite H; reflexivity.
Qed.

Lemma line_disks_split (l1 l2 : string) :
  Py.split l1 = Py.split l2 -> line_disks threshold l1 = line_disks threshold l2.
Proof. intros H; unfold line_disks; now rewrite (parse_line_split l1 l2 H). Qed.

Lemma line_disks_empty : line_disks threshold "" = [].
Proof. reflexivity. Qed.

(** The list [disks] after the loop: what it held before, then the entries
    of the lines in order. *)
Lemma parse_loop_disks (lines : list string) (acc : list Disk * list string) :
  fst (fold_left (parse_step threshold) lines acc)
  = (fst acc ++ flat_map (line_disks threshold) lines)%list.
Proof.
  revert acc; induction lines as [|l lines IH]; intros acc; simpl.
  - now rewrite app_nil_r.
  - rewrite IH; unfold parse_step, line_disks.
    destruct (parse_line threshold l); simpl;
      [now rewrite <- app_assoc | reflexivity | reflexivity].
Qed.

Lemma parse_output_disks (stdout : string) (err : list string) :
  fst (parse_output threshold stdout err)
  = flat_map (line_disks threshold) (Py.split_lines (Py.strip stdout)).
Proof. unfold parse_output; now rewrite parse_loop_disks. Qed.

(** A blank in front of the text does not change the entries. *)
Lemma disks_space_head (c : ascii) (s : string) :
  Py.isspace c = true ->
  flat_map (line_disks threshold) (Py.split_lines (String c s))
  = flat_map (line_disks threshold) (Py.split_lines s).
Proof.
  intros Hc; simpl. destruct (Ascii.eqb c Py.newline); [reflexivity|].
  pose proof (split_lines_nonempty s) as Hne.
  destruct (Py.split_lines s) as [|l ls]; [contradiction|]; simpl.
  f_equal; apply line_disks_split, split_space_head, Hc.
Qed.

Lemma disks_snoc_last (c : ascii) (ls : list string) :
  Py.isspace c = true -> ls <> [] ->
  flat_map (line_disks threshold) (snoc_last c ls)
  = flat_map (line_disks threshold) ls.
Proof.
  intros Hc; induction ls as [|l ls IH]; [contradiction|]; intros _.
  destruct ls as [|l' ls'].
  - simpl; f_equal; apply line_disks_split, split_space_last, Hc.
  - change (flat_map (line_disks threshold) (snoc_last c (l :: l' :: ls')))
      with (line_disks threshold l
            ++ flat_map (line_disks threshold) (snoc_last c (l' :: ls')))%list.
    rewrite IH by discriminate; reflexivity.
Qed.

(** A blank behind the text does not change the entries. *)
Lemma disks_space_last (c : ascii) (s : string) :
  Py.isspace c = true ->
  flat_map (line_disks threshold) (Py.split_lines (s ++ String c ""))
  = flat_map (line_disks threshold) (Py.split_lines s).
Proof.
  intros Hc; rewrite split_lines_snoc.
  destruct (Ascii.eqb c Py.newline).
  - rewrite flat_map_app; simpl; now rewrite app_nil_r.
  - apply disks_snoc_last; [assumption|apply split_lines_nonempty].
Qed.

Lemma disks_spaces_head (ws s : string) :
  all_chars Py.isspace ws = true ->
  flat_map (line_disks threshold) (Py.split_lines (ws ++ s))
  = flat_map (line_disks threshold) (Py.split_lines s).
Proof.
  induction ws as [|c ws IH]; [reflexivity|]; intros H.
  simpl in H; apply andb_true_iff in H as [Hc Hws].
  change (String c ws ++ s) with (String c (ws ++ s)).
  rewrite disks_space_head by assumption; now apply IH.
Qed.

Lemma disks_spaces_last (ws s : string) :
  all_chars Py.isspace ws = true ->
  flat_map (line_disks threshold) (Py.split_lines (s ++ ws))
  = flat_map (line_disks threshold) (Py.split_lines s).
Proof.
  revert s; induction ws as [|c ws IH]; intros s H.
  - now rewrite append_nil_r.
  - simpl in H; apply andb_true_iff in H as [Hc Hws].
    change (String c ws) with (String c "" ++ ws).
    rewrite <- append_assoc, IH by assumption.
    now apply disks_space_last.
Qed.

(** [strip] ahead of the split into lines is invisible in the entries. *)
Lemma disks_strip (s : string) :
  flat_map (line_disks threshold) (Py.split_lines (Py.strip s))
  = flat_map (line_disks threshold) (Py.split_lines s).
Proof.
  unfold Py.strip.
  destruct (lstrip_with_decomp Py.isspace s) as (w1 & H1 & Hw1).
  destruct (rstrip_with_decomp Py.isspace (Py.lstrip_with Py.isspace s))
    as (w2 & H2 & Hw2).
  rewrite H1 at 2; rewrite disks_spaces_head by assumption.
  rewrite H2 at 2; now rewrite disks_spaces_last.
Qed.

(** The entries of a text given as its lines. *)
Lemma parse_output_join (lines : list string) (err : list string) :
  forallb one_line lines = true ->
  fst (parse_output threshold (Py.join_lines lines) err)
  = flat_map (line_disks threshold) lines.
Proof.
  intros H; rewrite parse_output_disks, disks_strip.
  destruct lines as [|l rest]; [reflexivity|].
  rewrite split_lines_join; [reflexivity|discriminate|assumption].
Qed.

(** An entry comes from a line, with the usage read at [parts[4]] and the
    flag computed from it. *)
Lemma line_disks_inv (line : string) (d : Disk) :
  In d (line_disks threshold line) ->
  Py.int (Py.rstrip_char "%"%char (usage_field line)) = Some (usage_percent d)
  /\ warning d = (threshold <=? usage_percent d)
  /\ (6 <= List.length (Py.split line))%nat.
Proof.
  unfold line_disks, parse_line, usage_field.
  destruct (Py.truthy line); [|contradiction].
  destruct (6 <=? List.length (Py.split line))%nat eqn:Hlen; [|contradiction].
  destruct (Py.int _) as [n|]; [|contradiction].
  intros [<-|[]]; simpl; repeat split.
  now apply Nat.leb_le.
Qed.

(** On a line of at most six parts the loop body reads the usage field the
    specification means. *)
Lemma canonical_usage_field_short (line : string) :
  (List.length (Py.split line) <= 6)%nat ->
  canonical_usage_field line = usage_field line.
Proof.
  intros H; unfold canonical_usage_field, usage_field, Py.last_n.
  replace (List.length (Py.split line) - 6)%nat with O by lia; reflexivity.
Qed.

Lemma malformed_no_disks (line : string) :
  (List.length (Py.split line) <= 6)%nat ->
  malformed line -> line_disks threshold line = [].
Proof.
  intros Hshort; unfold malformed.
  rewrite (canonical_usage_field_short line Hshort).
  unfold line_disks, parse_line, usage_field.
  destruct (Py.truthy line); [|reflexivity].
  intros [Hlen|Hint].
  - apply Nat.leb_gt in Hlen; now rewrite Hlen.
  - destruct (6 <=? _)%nat; [|reflexivity]; now rewrite Hint.
Qed.

Lemma wellformed_one_disk (line : string) :
  (List.length (Py.split line) <= 6)%nat ->
  ~ malformed line -> exists d, line_disks threshold line = [d].
Proof.
  intros Hshort; unfold malformed.
  rewrite (canonical_usage_field_short line Hshort).
  unfold line_disks, parse_line, usage_field; intros H.
  destruct (6 <=? List.length (Py.split line))%nat eqn:Hlen.
  - assert (Ht : Py.truthy line = true).
    { destruct line; [discriminate Hlen|reflexivity]. }
    rewrite Ht.
    destruct (Py.int _) as [n|]; [eexists; reflexivity|].
    exfalso; apply H; now right.
  - exfalso; apply H; left; now apply Nat.leb_gt.
Qed.

End ParserLemmas.

(** ** Lemmas on counting and on the loop over the hosts *)

Lemma py_sum_ones {A : Type} (l : list A) :
  py_sum (map (fun _ => 1) l) = Z.of_nat (List.length l).
Proof.
  unfold py_sum.
  assert (H : forall acc, fold_left Z.add (map (fun _ : A => 1) l) acc
                          = acc + Z.of_nat (List.length l)).
  { induction l as [|x l IH]; intros acc; simpl List.length; simpl fold_left.
    - lia.
    - rewrite IH; lia. }
  now rewrite H.
Qed.

Lemma filter_length_count {A : Type} (p : A -> bool) (l : list A) :
  List.length (filter p l) = count_if p l.
Proof.
  induction l as [|x l IH]; simpl; [reflexivity|].
  destruct (p x); simpl; now rewrite IH.
Qed.

Lemma is_error_failed (r : Result) : is_error r = failed r.
Proof. now destruct r. Qed.

Lemma is_warning_flagged (r : Result) : is_warning r = flagged r.
Proof. now destruct r. Qed.

Lemma count_if_ext {A : Type} (p q : A -> bool) (l : list A) :
  (forall x, p x = q x) -> count_if p l = count_if q l.
Proof.
  intros H; induction l as [|x l IH]; simpl; [reflexivity|].
  now rewrite H, IH.
Qed.

Lemma count_if_app {A : Type} (p : A -> bool) (l1 l2 : list A) :
  count_if p (l1 ++ l2) = (count_if p l1 + count_if p l2)%nat.
Proof.
  induction l1 as [|x l1 IH]; simpl; [reflexivity|].
  destruct (p x); simpl; now rewrite IH.
Qed.

Lemma count_if_pos {A : Type} (p : A -> bool) (l : list A) :
  Exists (fun x => p x = true) l -> (0 < count_if p l)%nat.
Proof.
  induction 1 as [x l Hx | x l _ IH]; simpl.
  - rewrite Hx; lia.
  - destruct (p x); lia.
Qed.

Lemma count_if_zero {A : Type} (p : A -> bool) (l : list A) :
  Forall (fun x => p x = false) l -> count_if p l = O.
Proof.
  induction 1 as [|x l Hx _ IH]; simpl; [reflexivity|].
  now rewrite Hx.
Qed.

Lemma get_summary_eq (results : list Result) :
  get_summary results
  = (Z.of_nat (List.length results),
     Z.of_nat (count_if flagged results),
     Z.of_nat (count_if failed results)).
Proof.
  unfold get_summary.
  rewrite !py_sum_ones, !filter_length_count.
  rewrite (count_if_ext is_error failed) by apply is_error_failed.
  rewrite (count_if_ext is_warning flagged) by apply is_warning_flagged.
  reflexivity.
Qed.

Lemma main_exit_eq (results : list Result) :
  main_exit results
  = if (0 <? count_if failed results)%nat then 2
    else if (0 <? count_if flagged results)%nat then 1 else 0.
Proof.
  unfold main_exit; rewrite get_summary_eq.
  destruct (count_if failed results), (count_if flagged results); reflexivity.
Qed.

Lemma dict_truthy_true (r : Result) : dict_truthy r = true.
Proof. now destruct r. Qed.

Section LoopLemmas.

Variable World : Type.
Variable run : list string -> Z -> World -> RunOutcome * World.
Variable threshold : Z.

Lemma check_all_loop_probe_seq (vms : list VM) (acc : list Result)
    (st : State World) :
  check_all_loop run threshold vms acc st
  = ((acc ++ fst (probe_seq run threshold vms st))%list,
     snd (probe_seq run threshold vms st)).
Proof.
  revert acc st; induction vms as [|vm rest IH]; intros acc st; simpl.
  - now rewrite app_nil_r.
  - destruct (check_vm_disk run threshold vm st) as [r st'].
    rewrite dict_truthy_true, IH.
    destruct (probe_seq run threshold rest st') as [rs st'']; simpl.
    now rewrite <- app_assoc.
Qed.

Lemma check_all_vms_probe_seq (vms : list VM) (st : State World) :
  check_all_vms run threshold vms st = probe_seq run threshold vms st.
Proof.
  unfold check_all_vms; rewrite check_all_loop_probe_seq; simpl.
  now destruct (probe_seq run threshold vms st).
Qed.

Lemma probe_seq_length (vms : list VM) (st : State World) :
  List.length (fst (probe_seq run threshold vms st)) = List.length vms.
Proof.
  revert st; induction vms as [|vm rest IH]; intros st; simpl; [reflexivity|].
  destruct (check_vm_disk run threshold vm st) as [r st'].
  specialize (IH st').
  destruct (probe_seq run threshold rest st') as [rs st'']; simpl in *.
  now rewrite IH.
Qed.

Lemma probe_seq_nth (vms : list VM) (st : State World) (i : nat) (vm : VM) :
  nth_error vms i = Some vm ->
  nth_error (fst (probe_seq run threshold vms st)) i
  = Some (fst (check_vm_disk run threshold vm
                 (snd (probe_seq run threshold (firstn i vms) st)))).
Proof.
  revert st i; induction vms as [|v rest IH]; intros st i H.
  - destruct i; discriminate.
  - destruct i as [|i]; simpl in H.
    + injection H as ->; simpl.
      destruct (check_vm_disk run threshold vm st) as [r st'].
      now destruct (probe_seq run threshold rest st').
    + simpl. destruct (check_vm_disk run threshold v st) as [r st'].
      specialize (IH st' i H).
      destruct (probe_seq run threshold rest st') as [rs st'']; simpl in *.
      rewrite IH.
      now destruct (probe_seq run threshold (firstn i rest) st').
Qed.

End LoopLemmas.

(** ** Properties of the parser, the probe, the summary and the exit status *)

(** On a line of exactly six parts the loop body and the reading of the
    specification agree. *)
Lemma canonical_line_six (threshold : Z) (line : string) :
  List.length (Py.split line) = 6%nat ->
  parse_line threshold line = canonical_line threshold line.
Proof.
  intros H; unfold parse_line, canonical_line, Py.last_n.
  assert (Ht : Py.truthy line = true).
  { destruct line; [discriminate|reflexivity]. }
  rewrite Ht, H; reflexivity.
Qed.

(** C1. The parser keeps the last six parts of a line of more than six
    parts, but it has read the usage at index 4 of the whole line before
    that.  On a device name with a blank the usage field of the last six
    parts, [47%], is never read: index 4 of the line is [50G] and the line
    is dropped.  On a line whose index 4 happens to be a number, that
    number is recorded in place of the [47] the last six parts carry. *)
Theorem usage_read_before_last_six :
  let line1 := "/dev/mapper/my vol 100G 45G 50G 47% /data" in
  let line2 := "a b 10G 4G 5 47% /mnt" in
  parse_line 80 line1 = Malformed
  /\ canonical_line 80 line1
     = Entry (mkDisk "vol" "100G" "45G" "50G" 47 "/data" false)
  /\ parse_line 80 line2 = Entry (mkDisk "b" "10G" "4G" "5" 5 "/mnt" false)
  /\ canonical_line 80 line2
     = Entry (mkDisk "b" "10G" "4G" "5" 47 "/mnt" false).
Proof. repeat split; reflexivity. Qed.

(** C2. The summary of a sequence of results: the total is its length, the
    error count the number of failures, the warning count the number of
    successes with a flagged entry; a success without a flagged entry
    enters neither count. *)
Theorem get_summary_counts (results : list Result) :
  get_summary results
  = (Z.of_nat (List.length results),
     Z.of_nat (count_if flagged results),
     Z.of_nat (count_if failed results))
  /\ forall before name host disks after,
       results = (before ++ Success name host disks :: after)%list ->
       Forall (fun d => warning d = false) disks ->
       count_if flagged results = count_if flagged (before ++ after)
       /\ count_if failed results = count_if failed (before ++ after).
Proof.
  split; [apply get_summary_eq|].
  intros before name host disks after -> Hd.
  rewrite !count_if_app; simpl.
  replace (existsb warning disks) with false; [split; reflexivity|].
  symmetry; induction Hd as [|d ds Hw _ IH]; simpl; [reflexivity|].
  now rewrite Hw.
Qed.

Lemma get_summary_counts_witness :
  get_summary
    [Success "VM1" "h1" [mkDisk "" "" "" "" 90 "" true];
     Success "VM2" "h2" [mkDisk "" "" "" "" 10 "" false];
     Failure "VM3" "h3" "Connection failed"] = (3, 1, 1)
  /\ count_if flagged
       [Success "VM1" "h1" [mkDisk "" "" "" "" 90 "" true];
        Success "VM2" "h2" [mkDisk "" "" "" "" 10 "" false];
        Failure "VM3" "h3" "Connection failed"]
     = count_if flagged
         [Success "VM1" "h1" [mkDisk "" "" "" "" 90 "" true];
          Failure "VM3" "h3" "Connection failed"].
Proof.
  split.
  - exact (proj1 (get_summary_counts _)).
  - refine (proj1 (proj2 (get_summary_counts _)
                     [Success "VM1" "h1" [mkDisk "" "" "" "" 90 "" true]]
                     "VM2" "h2" [mkDisk "" "" "" "" 10 "" false]
                     [Failure "VM3" "h3" "Connection failed"] eq_refl _)).
    repeat constructor.
Defined.

(** C3. The exit status is 2 as soon as one result is a failure, whatever
    the warnings; without a failure it is 1 when some success has a flagged
    entry, and 0 otherwise. *)
Theorem main_exit_cases (results : list Result) :
  (Exists (fun r => failed r = true) results -> main_exit results = 2)
  /\ (Forall (fun r => failed r = false) results ->
      Exists (fun r => flagged r = true) results -> main_exit results = 1)
  /\ (Forall (fun r => failed r = false) results ->
      Forall (fun r => flagged r = false) results -> main_exit results = 0).
Proof.
  rewrite main_exit_eq; repeat split.
  - intros H; apply count_if_pos in H.
    destruct (count_if failed results); [lia|reflexivity].
  - intros Hf Hw; rewrite (count_if_zero _ _ Hf); apply count_if_pos in Hw.
    destruct (count_if flagged results); [lia|reflexivity].
  - intros Hf Hw; now rewrite (count_if_zero _ _ Hf), (count_if_zero _ _ Hw).
Qed.

Lemma main_exit_cases_witness :
  main_exit [Success "a" "h" [mkDisk "" "" "" "" 90 "" true];
             Failure "b" "h" "Connection timeout"] = 2
  /\ main_exit [Success "a" "h" [mkDisk "" "" "" "" 90 "" true]] = 1
  /\ main_exit [Success "a" "h" [mkDisk "" "" "" "" 10 "" false]] = 0.
Proof.
  split; [|split].
  - apply (proj1 (main_exit_cases _)).
    apply Exists_cons_tl, Exists_cons_hd; reflexivity.
  - apply (proj1 (proj2 (main_exit_cases _))).
    + repeat constructor.
    + apply Exists_cons_hd; reflexivity.
  - apply (proj2 (proj2 (main_exit_cases _))); repeat constructor.
Defined.

(** C4. Checking all hosts yields one result per record, in the order of
    the records: the result at index [i] is the probe of the record at
    index [i], run in the state the first [i] probes left. *)
Theorem check_all_vms_pointwise (World : Type)
    (run : list string -> Z -> World -> RunOutcome * World)
    (threshold : Z) (vms : list VM) (st : State World) :
  List.length (fst (check_all_vms run threshold vms st)) = List.length vms
  /\ forall i vm,
       nth_error vms i = Some vm ->
       nth_error (fst (check_all_vms run threshold vms st)) i
       = Some (fst (check_vm_disk run threshold vm
                      (snd (check_all_vms run threshold (firstn i vms) st)))).
Proof.
  split.
  - rewrite check_all_vms_probe_seq; apply probe_seq_length.
  - intros i vm H; rewrite !check_all_vms_probe_seq; now apply probe_seq_nth.
Qed.

Lemma check_all_vms_pointwise_witness :
  nth_error (fst (check_all_vms Demo.run 80 [Demo.vm1; Demo.vm2] Demo.start)) 1
  = Some (Failure "Test VM 2" "192.168.1.20" "Connection timeout").
Proof.
  exact (proj2 (check_all_vms_pointwise nat Demo.run 80
                  [Demo.vm1; Demo.vm2] Demo.start) 1%nat Demo.vm2 eq_refl).
Defined.

(** The probe of a record that has a host, by outcome of the transport. *)
Lemma check_vm_disk_with_host (World : Type)
    (run : list string -> Z -> World -> RunOutcome * World)
    (threshold : Z) (vm : VM) (st : State World) (host : string) :
  vm_host vm = Some host -> host <> "" ->
  fst (check_vm_disk run threshold vm st)
  = let name := dict_get (vm_name vm) host in
    match fst (run (ssh_cmd host (dict_get (vm_user vm) "root")
                      (dict_get (vm_port vm) 22)
                      (dict_get (vm_ssh_key vm) ""))
                 30 (world st)) with
    | Completed returncode stdout stderr =>
        if returncode =? 0
        then Success name host
               (flat_map (line_disks threshold)
                  (Py.split_lines (Py.strip stdout)))
        else Failure name host
               (Py.str_or (Py.strip stderr) "Connection failed")
    | TimeoutExpired => Failure name host "Connection timeout"
    | Raised msg => Failure name host msg
    end.
Proof.
  intros Hh Hne; unfold check_vm_disk; rewrite Hh.
  assert (Ht : Py.truthy host = true) by (destruct host; [contradiction|reflexivity]).
  destruct (vm_name vm) as [n|]; simpl dict_get; cbv iota; rewrite Ht; simpl negb;
    cbv iota;
    destruct (run _ 30 (world st)) as [[rc out err| |msg] w]; simpl;
    try reflexivity;
    destruct (rc =? 0); simpl; try reflexivity;
    rewrite <- (parse_output_disks threshold out (stderr_log st));
    destruct (parse_output threshold out (stderr_log st)); reflexivity.
Qed.

(** C5 (as the code has it).  A record whose host is absent or empty is
    answered with the failure "Missing required parameter: host", host
    "N/A", and as name the name of the record when it is there and not
    empty, "Unknown" otherwise.  The answer and the state are the same
    for every transport: none is called. *)
Theorem missing_host_failure (World : Type)
    (run : list string -> Z -> World -> RunOutcome * World)
    (threshold : Z) (vm : VM) (st : State World) :
  vm_host vm = None \/ vm_host vm = Some "" ->
  check_vm_disk run threshold vm st
  = (Failure
       match vm_name vm with
       | Some n => if Py.truthy n then n else "Unknown"
       | None => "Unknown"
       end
       "N/A" "Missing required parameter: host",
     st).
Proof.
  intros [H|H]; unfold check_vm_disk; rewrite H;
    destruct (vm_name vm) as [n|]; reflexivity.
Qed.

Lemma missing_host_failure_witness :
  check_vm_disk Demo.run 80 (mkVM (Some "db") None None None None) Demo.start
  = (Failure "db" "N/A" "Missing required parameter: host", Demo.start).
Proof.
  apply (missing_host_failure nat Demo.run 80
           (mkVM (Some "db") None None None None) Demo.start).
  left; reflexivity.
Defined.

(** C5, as stated, fails on a record whose name is there but empty: the
    name of the result is "Unknown", not the name of the record. *)
Lemma missing_host_empty_name :
  let vm := mkVM (Some "") None None None None in
  vm_host vm = None
  /\ vm_name vm = Some ""
  /\ fst (check_vm_disk Demo.run 80 vm Demo.start)
     = Failure "Unknown" "N/A" "Missing required parameter: host"
  /\ fst (check_vm_disk Demo.run 80 vm Demo.start)
     <> Failure (dict_get (vm_name vm) "Unknown") "N/A"
          "Missing required parameter: host".
Proof. repeat split; discriminate. Qed.

(** C6. For a record with a host, the outcome of the remote command decides
    the result: a non-zero exit gives a failure with the stripped stderr,
    or "Connection failed" when nothing is left of it; a timeout gives the
    failure "Connection timeout"; another exception gives a failure with
    its message; a zero exit gives a success with the parsed entries. *)
Theorem outcome_mapping (World : Type)
    (run : list string -> Z -> World -> RunOutcome * World)
    (threshold : Z) (vm : VM) (st : State World) (host : string) :
  vm_host vm = Some host -> host <> "" ->
  let name := dict_get (vm_name vm) host in
  let outcome :=
    fst (run (ssh_cmd host (dict_get (vm_user vm) "root")
                (dict_get (vm_port vm) 22) (dict_get (vm_ssh_key vm) ""))
           30 (world st)) in
  let result := fst (check_vm_disk run threshold vm st) in
  (forall returncode stdout stderr,
      outcome = Completed returncode stdout stderr -> returncode <> 0 ->
      result = Failure name host
                 (if String.eqb (Py.strip stderr) "" then "Connection failed"
                  else Py.strip stderr))
  /\ (outcome = TimeoutExpired ->
      result = Failure name host "Connection timeout")
  /\ (forall msg, outcome = Raised msg -> result = Failure name host msg)
  /\ (forall stdout stderr,
         outcome = Completed 0 stdout stderr ->
         result = Success name host
                    (flat_map (line_disks threshold)
                       (Py.split_lines (Py.strip stdout)))).
Proof.
  intros Hh Hne name outcome result.
  assert (E := check_vm_disk_with_host World run threshold vm st host Hh Hne).
  fold outcome result in E; cbv zeta in E. fold name in E.
  repeat split.
  - intros rc out err Ho Hrc; rewrite E, Ho.
    apply Z.eqb_neq in Hrc; rewrite Hrc.
    unfold Py.str_or; now destruct (Py.strip err).
  - intros Ho; now rewrite E, Ho.
  - intros msg Ho; now rewrite E, Ho.
  - intros out err Ho; now rewrite E, Ho.
Qed.

Lemma outcome_mapping_witness :
  fst (check_vm_disk Demo.refuse 80 Demo.vm1 Demo.start)
  = Failure "Test VM 1" "192.168.1.10" "Connection refused".
Proof.
  exact (proj1 (outcome_mapping nat Demo.refuse 80 Demo.vm1 Demo.start
                  "192.168.1.10" eq_refl ltac:(discriminate))
           255 "" "Connection refused
" eq_refl ltac:(discriminate)).
Defined.

(** Every entry of the output comes from one of its lines. *)
Lemma parse_output_In (threshold : Z) (stdout : string) (err : list string)
    (d : Disk) :
  In d (fst (parse_output threshold stdout err)) ->
  exists line,
    In line (Py.split_lines (Py.strip stdout))
    /\ In d (line_disks threshold line).
Proof.
  rewrite parse_output_disks; intros H.
  apply in_flat_map in H as (line & Hl & Hd); now exists line.
Qed.

(** C7. An entry is flagged exactly when its usage is at or above the
    threshold: flagged at the threshold, not flagged one below it. *)
Theorem warning_at_or_above (threshold : Z) (stdout : string)
    (err : list string) (d : Disk) :
  In d (fst (parse_output threshold stdout err)) ->
  (warning d = true <-> usage_percent d >= threshold)
  /\ (usage_percent d = threshold -> warning d = true)
  /\ (usage_percent d = threshold - 1 -> warning d = false).
Proof.
  intros H; apply parse_output_In in H as (line & _ & Hd).
  apply line_disks_inv in Hd as (_ & Hw & _); rewrite Hw.
  repeat split.
  - intros E; apply Z.leb_le in E; lia.
  - intros E; apply Z.leb_le; lia.
  - intros E; apply Z.leb_le; lia.
  - intros E; apply Z.leb_gt; lia.
Qed.

Lemma warning_at_or_above_witness :
  let d := mkDisk "/dev/sda2" "50G" "42G" "5G" 89 "/var" true in
  (warning d = true <-> usage_percent d >= 89)
  /\ (usage_percent d = 89 -> warning d = true)
  /\ (usage_percent d = 89 - 1 -> warning d = false).
Proof.
  apply (warning_at_or_above 89 Demo.stdout_a []).
  right; left; reflexivity.
Defined.

(** C8. On a line of more than six parts the parser does not skip as the
    specification says, by the defect of C1: the usage is read at index 4
    of the whole line.  A well-formed line with a blank in the device name
    is dropped along with the malformed line that follows it, and a
    malformed line whose index 4 happens to be a number yields an entry. *)
Theorem long_line_breaks_skipping :
  let valid := "/dev/mapper/my vol 100G 45G 50G 47% /data" in
  let short := "tmpfs 1G 0 1G" in
  let sda2 := "/dev/sda2 50G 42G 5G 89% /var" in
  let wrong := "a b 10G 4G 5 x% /mnt" in
  ~ malformed valid /\ malformed short /\ ~ malformed sda2 /\ malformed wrong
  /\ fst (parse_output 80 (Py.join_lines [valid; short; sda2]) [])
     = [mkDisk "/dev/sda2" "50G" "42G" "5G" 89 "/var" true]
  /\ fst (parse_output 80 (Py.join_lines [sda2; wrong]) [])
     = [mkDisk "/dev/sda2" "50G" "42G" "5G" 89 "/var" true;
        mkDisk "b" "10G" "4G" "5" 5 "/mnt" false].
Proof.
  cbv zeta; repeat split.
  - intros [H|H]; vm_compute in H; [lia|discriminate].
  - left; vm_compute; lia.
  - intros [H|H]; vm_compute in H; [lia|discriminate].
  - right; reflexivity.
Qed.

(** On a line of at most six parts the loop body and the reading of the
    specification agree. *)
Lemma parse_line_short (threshold : Z) (line : string) :
  (List.length (Py.split line) <= 6)%nat ->
  parse_line threshold line = canonical_line threshold line.
Proof.
  intros H; unfold parse_line, canonical_line, Py.last_n.
  replace (List.length (Py.split line) - 6)%nat with O by lia.
  replace (6 <? List.length (Py.split line))%nat with false
    by (symmetry; apply Nat.ltb_ge; exact H).
  destruct line; reflexivity.
Qed.

(** X22. In an output whose lines have at most six parts each, a malformed
    line (fewer than six parts, or a usage field that is no integer) is
    dropped and nothing else is: the entries are those of the lines before
    it followed by those of the lines after it; each of these lines gives
    what the specification reads in it, one entry when it is well formed;
    and a probe whose command exits with status 0 on such an output is a
    success carrying these entries. *)
Theorem short_malformed_line_skipped (threshold : Z)
    (before : list string) (bad : string) (after : list string) :
  forallb one_line (before ++ bad :: after) = true ->
  Forall (fun l => (List.length (Py.split l) <= 6)%nat)
    (before ++ bad :: after) ->
  malformed bad ->
  (forall err,
      fst (parse_output threshold (Py.join_lines (before ++ bad :: after)) err)
      = (flat_map (line_disks threshold) before
         ++ flat_map (line_disks threshold) after)%list)
  /\ (forall line,
         In line (before ++ after) ->
         line_disks threshold line
         = match canonical_line threshold line with
           | Entry d => [d]
           | _ => []
           end)
  /\ (forall line,
         In line (before ++ after) -> ~ malformed line ->
         exists d, line_disks threshold line = [d])
  /\ forall (World : Type)
       (run : list string -> Z -> World -> RunOutcome * World)
       (vm : VM) (st : State World) (host stderr : string),
       vm_host vm = Some host -> host <> "" ->
       fst (run (ssh_cmd host (dict_get (vm_user vm) "root")
                   (dict_get (vm_port vm) 22) (dict_get (vm_ssh_key vm) ""))
              30 (world st))
       = Completed 0 (Py.join_lines (before ++ bad :: after)) stderr ->
       fst (check_vm_disk run threshold vm st)
       = Success (dict_get (vm_name vm) host) host
           (flat_map (line_disks threshold) before
            ++ flat_map (line_disks threshold) after).
Proof.
  intros Hl Hshort Hbad.
  assert (Hin : forall line, In line (before ++ after) ->
                (List.length (Py.split line) <= 6)%nat).
  { rewrite Forall_forall in Hshort; intros line H; apply Hshort.
    apply in_app_or in H as [H|H]; apply in_or_app;
      [now left|right; now right]. }
  assert (Hb : (List.length (Py.split bad) <= 6)%nat).
  { rewrite Forall_forall in Hshort; apply Hshort, in_or_app.
    right; now left. }
  assert (E : forall err,
             fst (parse_output threshold
                    (Py.join_lines (before ++ bad :: after)) err)
             = (flat_map (line_disks threshold) before
                ++ flat_map (line_disks threshold) after)%list).
  { intros err; rewrite parse_output_join by assumption.
    rewrite flat_map_app; simpl.
    now rewrite (malformed_no_disks threshold bad Hb Hbad). }
  split; [exact E|].
  split.
  { intros line H; unfold line_disks.
    now rewrite (parse_line_short threshold line (Hin line H)). }
  split.
  { intros line H Hwf; apply wellformed_one_disk; auto. }
  intros World run vm st host stderr Hh Hne Ho.
  rewrite (check_vm_disk_with_host World run threshold vm st host Hh Hne).
  cbv zeta; rewrite Ho; simpl.
  rewrite <- (parse_output_disks threshold _ []); f_equal; apply E.
Qed.

Lemma short_malformed_line_skipped_witness :
  fst (parse_output 80
         (Py.join_lines
            (["/dev/sda1 100G 45G 50G 47% /"]
             ++ "tmpfs 1G 0 1G" :: ["/dev/sda2 50G 42G 5G 89% /var"])) [])
  = [ mkDisk "/dev/sda1" "100G" "45G" "50G" 47 "/" false;
      mkDisk "/dev/sda2" "50G" "42G" "5G" 89 "/var" true ].
Proof.
  assert (Hbad : malformed "tmpfs 1G 0 1G") by (left; vm_compute; lia).
  assert (Hshort : Forall (fun l => (List.length (Py.split l) <= 6)%nat)
                     (["/dev/sda1 100G 45G 50G 47% /"]
                      ++ "tmpfs 1G 0 1G" :: ["/dev/sda2 50G 42G 5G 89% /var"])).
  { repeat constructor; vm_compute; lia. }
  exact (proj1 (short_malformed_line_skipped 80
                  ["/dev/sda1 100G 45G 50G 47% /"] "tmpfs 1G 0 1G"
                  ["/dev/sda2 50G 42G 5G 89% /var"] eq_refl Hshort Hbad) []).
Defined.


(** A line of six parts or more whose usage is an integer gives an entry
    with that usage. *)
Lemma line_disks_usage (threshold : Z) (line : string) (n : Z) :
  (6 <= List.length (Py.split line))%nat ->
  Py.int (Py.rstrip_char "%"%char (usage_field line)) = Some n ->
  exists d, In d (line_disks threshold line) /\ usage_percent d = n.
Proof.
  intros Hlen Hint; unfold line_disks, parse_line.
  assert (Ht : Py.truthy line = true).
  { destruct line; [simpl in Hlen; lia|reflexivity]. }
  rewrite Ht; apply Nat.leb_le in Hlen; rewrite Hlen.
  fold (usage_field line); rewrite Hint.
  eexists; split; [left; reflexivity|reflexivity].
Qed.



(** ** Integer literals *)

Ltac digit_cases d H :=
  do 10 (destruct d as [|d]; [try reflexivity|]);
  exfalso; simpl in H; lia.

Lemma digit_value_char (d : nat) :
  (d < 10)%nat -> Py.digit_value (digit_char d) = Some (Z.of_nat d).
Proof. intros H; digit_cases d H. Qed.

Lemma digit_char_not_underscore (d : nat) :
  (d < 10)%nat -> Ascii.eqb (digit_char d) Py.underscore = false.
Proof. intros H; digit_cases d H. Qed.

Lemma digit_char_not_blank (d : nat) :
  (d < 10)%nat -> Py.int_isspace (digit_char d) = false.
Proof. intros H; digit_cases d H. Qed.

Lemma digit_char_not_percent (d : nat) :
  (d < 10)%nat -> Ascii.eqb "%"%char (digit_char d) = false.
Proof. intros H; digit_cases d H. Qed.

Lemma int_signed_digit (d : nat) (s : string) :
  (d < 10)%nat ->
  Py.int_signed (String (digit_char d) s)
  = Py.int_unsigned (String (digit_char d) s).
Proof. intros H; digit_cases d H. Qed.

Lemma int_digits_text (ds : list nat) (acc : Z) :
  Forall (fun d => (d < 10)%nat) ds ->
  Py.int_digits acc false (digits_text ds)
  = Some (fold_left (fun a d => 10 * a + Z.of_nat d) ds acc).
Proof.
  intros H; revert acc; induction H as [|d ds Hd _ IH]; intros acc.
  - reflexivity.
  - cbn [digits_text Py.int_digits fold_left].
    now rewrite digit_char_not_underscore, digit_value_char, IH.
Qed.

Lemma digit_run_text (ds : list nat) :
  Forall (fun d => (d < 10)%nat) ds ->
  Py.digit_run (digits_text ds) = Z.of_nat (List.length ds).
Proof.
  induction 1 as [|d ds Hd _ IH]; [reflexivity|].
  cbn [digits_text Py.digit_run List.length].
  rewrite digit_char_not_underscore, digit_value_char, IH by assumption.
  lia.
Qed.

Lemma int_unsigned_digits (ds : list nat) :
  ds <> [] -> Forall (fun d => (d < 10)%nat) ds ->
  Z.of_nat (List.length ds) <= Py.int_max_str_digits ->
  Py.int_unsigned (digits_text ds) = Some (digits_value ds).
Proof.
  intros Hne H Hcap; unfold Py.int_unsigned, digits_value.
  rewrite <- int_digits_text by assumption.
  rewrite (digit_run_text ds H).
  replace (Py.int_max_str_digits <? Z.of_nat (List.length ds)) with false
    by (symmetry; apply Z.ltb_ge; exact Hcap).
  destruct ds as [|d ds]; [contradiction|]; cbn [digits_text].
  inversion H; subst; now rewrite digit_char_not_underscore.
Qed.

Lemma rstrip_with_all (p : ascii -> bool) (ws : string) :
  all_chars p ws = true -> Py.rstrip_with p ws = "".
Proof.
  induction ws as [|c ws IH]; simpl; [reflexivity|].
  intros H; apply andb_true_iff in H as [Hc Hws].
  now rewrite (IH Hws), Hc.
Qed.

(** Stripping behind a digit string removes what follows it and no digit. *)
Lemma rstrip_with_digits (p : ascii -> bool) (ds : list nat) (ws : string) :
  (forall d, (d < 10)%nat -> p (digit_char d) = false) ->
  ds <> [] -> Forall (fun d => (d < 10)%nat) ds ->
  all_chars p ws = true ->
  Py.rstrip_with p (digits_text ds ++ ws) = digits_text ds.
Proof.
  intros Hp Hne H Hws; induction H as [|d ds Hd Hds IH]; [contradiction|].
  cbn [digits_text append Py.rstrip_with]. destruct ds as [|d' ds'].
  - cbn [digits_text append].
    now rewrite (rstrip_with_all p ws Hws), (Hp d Hd).
  - rewrite IH by discriminate; reflexivity.
Qed.

Lemma rstrip_with_cons (p : ascii -> bool) (c : ascii) (s : string) :
  Py.rstrip_with p s <> "" ->
  Py.rstrip_with p (String c s) = String c (Py.rstrip_with p s).
Proof. simpl; destruct (Py.rstrip_with p s); [contradiction|reflexivity]. Qed.

Lemma digits_text_nonempty (ds : list nat) : ds <> [] -> digits_text ds <> "".
Proof. destruct ds; [contradiction|discriminate]. Qed.

Lemma rstrip_with_literal (p : ascii -> bool) (sign : Sign) (ds : list nat)
    (ws : string) :
  (forall d, (d < 10)%nat -> p (digit_char d) = false) ->
  ds <> [] -> Forall (fun d => (d < 10)%nat) ds ->
  all_chars p ws = true ->
  Py.rstrip_with p (sign_text sign ++ digits_text ds ++ ws)
  = sign_text sign ++ digits_text ds.
Proof.
  intros Hp Hne H Hws.
  pose proof (rstrip_with_digits p ds ws Hp Hne H Hws) as E.
  pose proof (digits_text_nonempty ds Hne) as Hd.
  destruct sign; cbn [sign_text append].
  - exact E.
  - rewrite rstrip_with_cons; rewrite E; [reflexivity | exact Hd].
  - rewrite rstrip_with_cons; rewrite E; [reflexivity | exact Hd].
Qed.

Lemma all_chars_percents (k : nat) :
  all_chars (Ascii.eqb "%"%char) (percents k) = true.
Proof. induction k as [|k IH]; simpl; [reflexivity|exact IH]. Qed.

(** [int] reads a written-out literal as the number it denotes. *)
Lemma int_literal (sign : Sign) (ds : list nat) :
  ds <> [] -> Forall (fun d => (d < 10)%nat) ds ->
  Z.of_nat (List.length ds) <= Py.int_max_str_digits ->
  Py.int (sign_text sign ++ digits_text ds)
  = Some (sign_apply sign (digits_value ds)).
Proof.
  intros Hne H Hcap; unfold Py.int.
  assert (L : Py.lstrip_with Py.int_isspace (sign_text sign ++ digits_text ds)
              = sign_text sign ++ digits_text ds).
  { destruct sign; try reflexivity.
    destruct ds as [|d ds]; [contradiction|].
    cbn [sign_text append digits_text Py.lstrip_with].
    inversion H; subst; now rewrite digit_char_not_blank. }
  rewrite L.
  pose proof (rstrip_with_literal Py.int_isspace sign ds ""
                digit_char_not_blank Hne H eq_refl) as R.
  rewrite append_nil_r in R; rewrite R.
  pose proof (int_unsigned_digits ds Hne H Hcap) as U.
  destruct sign; cbn [sign_text append sign_apply Py.int_signed].
  - destruct ds as [|d ds]; [contradiction|]; cbn [digits_text] in *.
    inversion H; subst; rewrite int_signed_digit by assumption.
    now rewrite U.
  - now rewrite U.
  - now rewrite U.
Qed.

Lemma int_unsigned_over_cap (ds : list nat) :
  Forall (fun d => (d < 10)%nat) ds ->
  Py.int_max_str_digits < Z.of_nat (List.length ds) ->
  Py.int_unsigned (digits_text ds) = None.
Proof.
  intros H Hcap; unfold Py.int_unsigned.
  rewrite (digit_run_text ds H).
  replace (Py.int_max_str_digits <? Z.of_nat (List.length ds)) with true
    by (symmetry; apply Z.ltb_lt; exact Hcap).
  destruct ds as [|d ds]; [reflexivity|]; cbn [digits_text].
  now destruct (Ascii.eqb (digit_char d) Py.underscore).
Qed.

(** [int] rejects a written-out literal of more digits than the cap. *)
Lemma int_literal_over_cap (sign : Sign) (ds : list nat) :
  ds <> [] -> Forall (fun d => (d < 10)%nat) ds ->
  Py.int_max_str_digits < Z.of_nat (List.length ds) ->
  Py.int (sign_text sign ++ digits_text ds) = None.
Proof.
  intros Hne H Hcap; unfold Py.int.
  assert (L : Py.lstrip_with Py.int_isspace (sign_text sign ++ digits_text ds)
              = sign_text sign ++ digits_text ds).
  { destruct sign; try reflexivity.
    destruct ds as [|d ds]; [contradiction|].
    cbn [sign_text append digits_text Py.lstrip_with].
    inversion H; subst; now rewrite digit_char_not_blank. }
  rewrite L.
  pose proof (rstrip_with_literal Py.int_isspace sign ds ""
                digit_char_not_blank Hne H eq_refl) as R.
  rewrite append_nil_r in R; rewrite R.
  pose proof (int_unsigned_over_cap ds H Hcap) as U.
  destruct sign; cbn [sign_text append Py.int_signed].
  - destruct ds as [|d ds]; [contradiction|]; cbn [digits_text] in *.
    inversion H; subst; rewrite int_signed_digit by assumption.
    exact U.
  - exact U.
  - now rewrite U.
Qed.




(** ** Further properties of the line parser *)

Lemma lstrip_with_all (p : ascii -> bool) (ws : string) :
  all_chars p ws = true -> Py.lstrip_with p ws = "".
Proof.
  induction ws as [|c ws IH]; simpl; [reflexivity|].
  intros H; apply andb_true_iff in H as [Hc Hws]; now rewrite Hc, IH.
Qed.

(** X1. An output made of blanks only (the empty output included) gives no
    entry and prints nothing. *)
Theorem parse_output_blank (threshold : Z) (stdout : string)
    (err : list string) :
  all_chars Py.isspace stdout = true ->
  parse_output threshold stdout err = ([], err).
Proof.
  intros H; unfold parse_output, Py.strip.
  now rewrite (lstrip_with_all _ _ H).
Qed.

Lemma parse_output_blank_witness :
  parse_output 80 "
   
" ["earlier"] = ([], ["earlier"]).
Proof. apply parse_output_blank; reflexivity. Defined.

Lemma is_token_cons (c : ascii) (w : string) :
  Py.isspace c = false -> is_token w = true -> is_token (String c w) = true.
Proof.
  unfold is_token; intros Hc H; apply andb_true_iff in H as [_ Hw].
  simpl; now rewrite Hc, Hw.
Qed.

Lemma is_token_single (c : ascii) :
  Py.isspace c = false -> is_token (String c "") = true.
Proof. unfold is_token; intros Hc; simpl; now rewrite Hc. Qed.

(** The parts of a line are words. *)
Lemma split_tokens (s : string) :
  Forall (fun w => is_token w = true) (Py.split s).
Proof.
  induction s as [|c s IH]; simpl; [constructor|].
  destruct (Py.isspace c) eqn:Hc; [exact IH|].
  destruct s as [|c' s'].
  - constructor; [now apply is_token_single|constructor].
  - destruct (Py.isspace c') eqn:Hc'.
    + constructor; [now apply is_token_single|exact IH].
    + destruct (Py.split (String c' s')) as [|w ws]; simpl.
      * constructor; [now apply is_token_single|constructor].
      * inversion IH; subst; constructor; [now apply is_token_cons|assumption].
Qed.

Lemma skipn_incl {A : Type} (k : nat) (l : list A) (x : A) :
  In x (skipn k l) -> In x l.
Proof.
  intros H; rewrite <- (firstn_skipn k l); apply in_or_app; now right.
Qed.

(** The fields of an entry are six parts of its line. *)
Lemma line_disks_fields (threshold : Z) (line : string) (d : Disk) :
  In d (line_disks threshold line) ->
  exists fields,
    List.length fields = 6%nat
    /\ (forall w, In w fields -> In w (Py.split line))
    /\ device d = nth 0 fields "" /\ size d = nth 1 fields ""
    /\ used d = nth 2 fields "" /\ available d = nth 3 fields ""
    /\ mount d = nth 5 fields "".
Proof.
  unfold line_disks, parse_line.
  destruct (Py.truthy line); [|contradiction].
  destruct (6 <=? List.length (Py.split line))%nat eqn:Hlen; [|contradiction].
  destruct (Py.int _) as [n|]; [|contradiction].
  apply Nat.leb_le in Hlen.
  intros [<-|[]]; simpl.
  destruct (6 <? List.length (Py.split line))%nat eqn:Hgt.
  - exists (Py.last_n 6 (Py.split line)); unfold Py.last_n.
    split; [rewrite length_skipn; lia|].
    split; [intros w; apply skipn_incl|repeat split].
  - apply Nat.ltb_ge in Hgt.
    exists (Py.split line); split; [lia|]; split; [auto|repeat split].
Qed.

(** X2. The five text fields of every entry are words: not empty, and
    without a blank of any kind (so without a line feed). *)
Theorem entry_fields_tokens (threshold : Z) (stdout : string)
    (err : list string) (d : Disk) :
  In d (fst (parse_output threshold stdout err)) ->
  is_token (device d) = true /\ is_token (size d) = true
  /\ is_token (used d) = true /\ is_token (available d) = true
  /\ is_token (mount d) = true.
Proof.
  intros H; apply parse_output_In in H as (line & _ & Hd).
  apply line_disks_fields in Hd
    as (fields & Hlen & Hin & -> & -> & -> & -> & ->).
  pose proof (split_tokens line) as Ht; rewrite Forall_forall in Ht.
  repeat split; apply Ht, Hin, nth_In; lia.
Qed.

Lemma entry_fields_tokens_witness :
  let d := mkDisk "/dev/sda1" "100G" "45G" "50G" 47 "/" false in
  is_token (device d) = true /\ is_token (size d) = true
  /\ is_token (used d) = true /\ is_token (available d) = true
  /\ is_token (mount d) = true.
Proof.
  apply (entry_fields_tokens 80 Demo.stdout_a []).
  left; reflexivity.
Defined.

Lemma parse_line_malformed (threshold : Z) (line : string) :
  parse_line threshold line = Malformed <-> unparsable line = true.
Proof.
  unfold parse_line, unparsable, usage_field.
  destruct line as [|c s]; [split; discriminate|].
  cbn [Py.truthy].
  destruct (6 <=? List.length (Py.split (String c s)))%nat;
    [|split; discriminate].
  destruct (Py.int _); simpl; split; (discriminate || reflexivity).
Qed.

Lemma parse_loop_log (threshold : Z) (lines : list string)
    (acc : list Disk * list string) :
  snd (fold_left (parse_step threshold) lines acc)
  = (snd acc ++ map parse_warning (filter unparsable lines))%list.
Proof.
  revert acc; induction lines as [|l lines IH]; intros acc; simpl.
  - now rewrite app_nil_r.
  - rewrite IH; unfold parse_step.
    pose proof (parse_line_malformed threshold l) as Hm.
    destruct (parse_line threshold l) eqn:E; simpl.
    + destruct (unparsable l); [|reflexivity].
      destruct Hm as [_ Hm]; discriminate (Hm eq_refl).
    + destruct (unparsable l); [|reflexivity].
      destruct Hm as [_ Hm]; discriminate (Hm eq_refl).
    + destruct Hm as [Hm _]; rewrite (Hm eq_refl); simpl.
      now rewrite <- app_assoc.
Qed.

Lemma parse_output_log (threshold : Z) (stdout : string)
    (err : list string) :
  snd (parse_output threshold stdout err)
  = (err ++ map parse_warning
              (filter unparsable (Py.split_lines (Py.strip stdout))))%list.
Proof. unfold parse_output; now rewrite parse_loop_log. Qed.

(** X3. What the parser prints: after what was printed before, one warning
    for each line of six parts or more whose usage field is no integer,
    in the order of the lines and quoting the line.  Shorter lines are
    dropped without a word, and the threshold plays no part. *)
Theorem parse_output_warnings (threshold : Z) (stdout : string)
    (err : list string) :
  snd (parse_output threshold stdout err)
  = (err ++ map parse_warning
              (filter unparsable (Py.split_lines (Py.strip stdout))))%list.
Proof. apply parse_output_log. Qed.

(** X4. No line counts twice: the entries and the warnings of an output
    together are at most as many as its lines. *)
Theorem parse_output_accounting (threshold : Z) (stdout : string)
    (err : list string) :
  (List.length (fst (parse_output threshold stdout err))
   + (List.length (snd (parse_output threshold stdout err))
      - List.length err)
   <= List.length (Py.split_lines (Py.strip stdout)))%nat.
Proof.
  rewrite parse_output_disks, parse_output_log.
  rewrite length_app, length_map.
  induction (Py.split_lines (Py.strip stdout)) as [|l ls IH]; simpl; [lia|].
  rewrite length_app.
  pose proof (parse_line_malformed threshold l) as Hm.
  unfold line_disks at 1.
  destruct (parse_line threshold l) eqn:E; simpl.
  - destruct (unparsable l); simpl; [|lia].
    destruct Hm as [_ Hm]; discriminate (Hm eq_refl).
  - destruct (unparsable l); simpl; lia.
  - destruct (unparsable l); simpl; lia.
Qed.

Lemma line_disks_unflag (t1 t2 : Z) (line : string) :
  map unflag (line_disks t1 line) = map unflag (line_disks t2 line).
Proof.
  unfold line_disks, parse_line.
  destruct (Py.truthy line); [|reflexivity].
  destruct (6 <=? _)%nat; [|reflexivity].
  destruct (Py.int _); reflexivity.
Qed.

(** X5. The threshold decides the flags and nothing else: two thresholds
    give the same entries up to their flags, and the same warnings. *)
Theorem parse_output_threshold (t1 t2 : Z) (stdout : string)
    (err : list string) :
  map unflag (fst (parse_output t1 stdout err))
  = map unflag (fst (parse_output t2 stdout err))
  /\ snd (parse_output t1 stdout err) = snd (parse_output t2 stdout err).
Proof.
  split; [|now rewrite !parse_output_log].
  rewrite !parse_output_disks.
  induction (Py.split_lines (Py.strip stdout)) as [|l ls IH]; simpl;
    [reflexivity|].
  now rewrite !map_app, IH, (line_disks_unflag t1 t2).
Qed.

Lemma is_token_inv (c : ascii) (w : string) :
  is_token (String c w) = true ->
  Py.isspace c = false /\ (w = "" \/ is_token w = true).
Proof.
  unfold is_token; simpl; intros H; apply andb_true_iff in H as [Hc Hw].
  apply negb_true_iff in Hc; split; [assumption|].
  destruct w; [now left|right; exact Hw].
Qed.

Lemma split_cons2 (a b : ascii) (s : string) :
  Py.split (String a (String b s))
  = if Py.isspace a then Py.split (String b s)
    else if Py.isspace b then String a "" :: Py.split (String b s)
         else Py.cons_head a (Py.split (String b s)).
Proof. reflexivity. Qed.

(** A word followed by a blank is the first part of the text. *)
Lemma split_token_space (w : string) (c : ascii) (rest : string) :
  is_token w = true -> Py.isspace c = true ->
  Py.split (w ++ String c rest) = w :: Py.split rest.
Proof.
  intros Hw Hc; induction w as [|a w IH]; [discriminate|].
  apply is_token_inv in Hw as [Ha [->|Hw]].
  - simpl; now rewrite Ha, Hc.
  - specialize (IH Hw). destruct w as [|b w]; [discriminate|].
    apply is_token_inv in Hw as [Hb _].
    cbn [append] in *; rewrite split_cons2, Ha, Hb, IH; reflexivity.
Qed.

Lemma split_token (w : string) : is_token w = true -> Py.split w = [w].
Proof.
  intros Hw; induction w as [|a w IH]; [discriminate|].
  apply is_token_inv in Hw as [Ha [->|Hw]].
  - simpl; now rewrite Ha.
  - specialize (IH Hw). destruct w as [|b w]; [discriminate|].
    apply is_token_inv in Hw as [Hb _].
    rewrite split_cons2, Ha, Hb, IH; reflexivity.
Qed.

(** X6. A line of six words separated by single spaces, as the remote
    [awk] prints them, is read column by column: when the fifth word is an
    integer once its trailing percent signs are gone, the entry carries
    the six columns and the flag of the threshold; when it is not, the
    line is reported as malformed. *)
Theorem six_columns_parsed (threshold : Z)
    (dev sz us av usage mnt : string) :
  is_token dev = true -> is_token sz = true -> is_token us = true ->
  is_token av = true -> is_token usage = true -> is_token mnt = true ->
  parse_line threshold
    (dev ++ " " ++ sz ++ " " ++ us ++ " " ++ av ++ " " ++ usage ++ " " ++ mnt)
  = match Py.int (Py.rstrip_char "%"%char usage) with
    | Some n => Entry (mkDisk dev sz us av n mnt (threshold <=? n))
    | None => Malformed
    end.
Proof.
  intros Hd Hs Hu Ha Hp Hm; unfold parse_line.
  assert (Hparts :
    Py.split (dev ++ " " ++ sz ++ " " ++ us ++ " " ++ av ++ " "
              ++ usage ++ " " ++ mnt)
    = [dev; sz; us; av; usage; mnt]).
  { cbn [append].
    repeat (rewrite split_token_space; [|assumption|reflexivity]).
    now rewrite split_token. }
  rewrite Hparts.
  assert (Ht : Py.truthy (dev ++ " " ++ sz ++ " " ++ us ++ " " ++ av ++ " "
                          ++ usage ++ " " ++ mnt) = true).
  { destruct dev; [discriminate|reflexivity]. }
  rewrite Ht; cbn [List.length Nat.leb Nat.ltb nth].
  destruct (Py.int _); reflexivity.
Qed.

Lemma six_columns_parsed_witness :
  parse_line 80 "/dev/sda2 50G 42G 5G 89% /var"
  = Entry (mkDisk "/dev/sda2" "50G" "42G" "5G" 89 "/var" true).
Proof.
  exact (six_columns_parsed 80 "/dev/sda2" "50G" "42G" "5G" "89%" "/var"
           eq_refl eq_refl eq_refl eq_refl eq_refl eq_refl).
Defined.

(** ** Further properties of the probe and of the loop over the hosts *)

(** The probe of a record without a usable host. *)
Lemma missing_host_name (World : Type)
    (run : list string -> Z -> World -> RunOutcome * World)
    (threshold : Z) (vm : VM) (st : State World) :
  vm_host vm = None \/ vm_host vm = Some "" ->
  fst (check_vm_disk run threshold vm st)
  = Failure (opt_str_or (vm_name vm) "Unknown") "N/A"
      "Missing required parameter: host".
Proof.
  intros [H|H]; unfold check_vm_disk; rewrite H;
    destruct (vm_name vm) as [n|]; reflexivity.
Qed.

Section ProbeProperties.

Variable World : Type.
Variable run : list string -> Z -> World -> RunOutcome * World.

(** A probe calls the transport once when the record has a usable host,
    and not at all otherwise. *)
Lemma check_vm_disk_world (threshold : Z) (vm : VM) (st : State World) :
  world (snd (check_vm_disk run threshold vm st))
  = match vm_command vm with
    | Some cmd => snd (run cmd 30 (world st))
    | None => world st
    end.
Proof.
  unfold check_vm_disk, vm_command.
  destruct (vm_host vm) as [host|]; [|now destruct (vm_name vm)].
  destruct (vm_name vm) as [n|]; destruct (Py.truthy host); simpl;
    try reflexivity;
    destruct (run _ 30 (world st)) as [[rc out err| |msg] w]; simpl;
    try reflexivity;
    destruct (rc =? 0); simpl; try reflexivity;
    destruct (parse_output threshold out (stderr_log st)); reflexivity.
Qed.

(** A probe only adds to what was printed on stderr, and adds nothing
    when it fails. *)
Lemma check_vm_disk_log (threshold : Z) (vm : VM) (st : State World) :
  exists ext,
    stderr_log (snd (check_vm_disk run threshold vm st))
    = (stderr_log st ++ ext)%list
    /\ (failed (fst (check_vm_disk run threshold vm st)) = true -> ext = []).
Proof.
  unfold check_vm_disk.
  assert (Hnil : exists ext : list string,
             stderr_log st = (stderr_log st ++ ext)%list
             /\ (true = true -> ext = [])).
  { exists []; split; [now rewrite app_nil_r|reflexivity]. }
  destruct (vm_host vm) as [host|]; [|destruct (vm_name vm); exact Hnil].
  destruct (vm_name vm) as [n|]; destruct (Py.truthy host); simpl;
    try exact Hnil;
    destruct (run _ 30 (world st)) as [[rc out err| |msg] w]; simpl;
    try exact Hnil;
    destruct (rc =? 0); simpl; try exact Hnil;
    pose proof (parse_output_log threshold out (stderr_log st)) as E;
    destruct (parse_output threshold out (stderr_log st)) as [ds log];
    simpl in *; eexists; (split; [exact E|discriminate]).
Qed.

(** X7. The transport is called for the records that have a usable host,
    once each, in the order of the records and with a timeout of 30: the
    outside world after the loop is the world after exactly these calls.
    No outcome stops the loop, and the threshold does not matter. *)
Theorem check_all_vms_world (threshold : Z) (vms : list VM)
    (st : State World) :
  world (snd (check_all_vms run threshold vms st))
  = fold_left (fun w cmd => snd (run cmd 30 w)) (vm_commands vms) (world st).
Proof.
  rewrite check_all_vms_probe_seq.
  revert st; induction vms as [|vm rest IH]; intros st; [reflexivity|].
  simpl probe_seq.
  pose proof (check_vm_disk_world threshold vm st) as Hw.
  destruct (check_vm_disk run threshold vm st) as [r st']; simpl in Hw.
  specialize (IH st').
  destruct (probe_seq run threshold rest st') as [rs st'']; simpl in *.
  rewrite IH, Hw; unfold vm_commands; simpl.
  rewrite fold_left_app.
  destruct (vm_command vm); reflexivity.
Qed.

(** X8. The loop only adds to what was printed on stderr, and adds nothing
    when every probe fails. *)
Theorem check_all_vms_log (threshold : Z) (vms : list VM)
    (st : State World) :
  exists ext,
    stderr_log (snd (check_all_vms run threshold vms st))
    = (stderr_log st ++ ext)%list
    /\ (Forall (fun r => failed r = true)
          (fst (check_all_vms run threshold vms st)) -> ext = []).
Proof.
  rewrite check_all_vms_probe_seq.
  revert st; induction vms as [|vm rest IH]; intros st.
  - exists []; split; [simpl; now rewrite app_nil_r|reflexivity].
  - simpl probe_seq.
    destruct (check_vm_disk_log threshold vm st) as (e1 & H1 & F1).
    destruct (check_vm_disk run threshold vm st) as [r st']; simpl in *.
    destruct (IH st') as (e2 & H2 & F2).
    destruct (probe_seq run threshold rest st') as [rs st'']; simpl in *.
    exists (e1 ++ e2)%list; split.
    + now rewrite H2, H1, app_assoc.
    + intros H; inversion H; subst.
      now rewrite F1, F2.
Qed.

(** X9. The host of a result is the host of the record, or "N/A" when the
    record has no usable host.  The name of a result is empty in one case
    only: the record has a usable host and a name that is the empty
    string. *)
Theorem result_name_host (threshold : Z) (vm : VM) (st : State World) :
  result_host (fst (check_vm_disk run threshold vm st))
  = match vm_command vm with
    | Some _ => dict_get (vm_host vm) ""
    | None => "N/A"
    end
  /\ (result_name (fst (check_vm_disk run threshold vm st)) = ""
      <-> vm_name vm = Some "" /\ vm_command vm <> None).
Proof.
  unfold vm_command.
  destruct (vm_host vm) as [host|] eqn:Hh.
  - destruct (Py.truthy host) eqn:Ht.
    + assert (Hne : host <> "") by (intros ->; discriminate).
      rewrite (check_vm_disk_with_host World run threshold vm st host Hh Hne).
      cbv zeta.
      assert (Hn : dict_get (vm_name vm) host = "" <-> vm_name vm = Some "").
      { destruct (vm_name vm) as [n|]; simpl; split; intros H;
          try congruence; try (injection H as ->; reflexivity). }
      destruct (fst (run _ 30 (world st))) as [rc out err| |msg];
        [destruct (rc =? 0)| |]; simpl;
        (split; [reflexivity|]); rewrite Hn;
        (split; [intros H; split; [exact H|discriminate]|intros [H _]; exact H]).
    + assert (Hm : vm_host vm = None \/ vm_host vm = Some "").
      { right; destruct host; [assumption|discriminate]. }
      rewrite (missing_host_name World run threshold vm st Hm); simpl.
      split; [reflexivity|].
      split; [|intros [_ H]; now contradiction H].
      destruct (vm_name vm) as [[|c n]|]; discriminate.
  - rewrite (missing_host_name World run threshold vm st (or_introl Hh)); simpl.
    split; [reflexivity|].
    split; [|intros [_ H]; now contradiction H].
    destruct (vm_name vm) as [[|c n]|]; discriminate.
Qed.

End ProbeProperties.

(** ** The threshold and the fleet *)

Lemma line_disks_fewer_flags (t1 t2 : Z) (line : string) :
  t1 <= t2 ->
  Forall2 (fun d1 d2 =>
             unflag d1 = unflag d2 /\ (warning d2 = true -> warning d1 = true))
    (line_disks t1 line) (line_disks t2 line).
Proof.
  intros Ht; unfold line_disks, parse_line.
  destruct (Py.truthy line); [|constructor].
  destruct (6 <=? _)%nat; [|constructor].
  destruct (Py.int _) as [n|]; [|constructor].
  constructor; [|constructor]; simpl; split; [reflexivity|].
  intros H; apply Z.leb_le in H; apply Z.leb_le; lia.
Qed.

Lemma parse_output_fewer_flags (t1 t2 : Z) (stdout : string)
    (err : list string) :
  t1 <= t2 ->
  Forall2 (fun d1 d2 =>
             unflag d1 = unflag d2 /\ (warning d2 = true -> warning d1 = true))
    (fst (parse_output t1 stdout err)) (fst (parse_output t2 stdout err)).
Proof.
  intros Ht; rewrite !parse_output_disks.
  induction (Py.split_lines (Py.strip stdout)) as [|l ls IH]; simpl;
    [constructor|].
  apply Forall2_app; [now apply line_disks_fewer_flags|exact IH].
Qed.

Lemma fewer_flags_failed (r1 r2 : Result) :
  fewer_flags r1 r2 -> failed r1 = failed r2.
Proof. destruct r1, r2; simpl; tauto. Qed.

Lemma fewer_flags_flagged (r1 r2 : Result) :
  fewer_flags r1 r2 -> flagged r2 = true -> flagged r1 = true.
Proof.
  destruct r1 as [n1 h1 ds1|], r2 as [n2 h2 ds2|]; simpl; try tauto.
  intros (_ & _ & H); induction H as [|d1 d2 l1 l2 [_ Hw] _ IH]; simpl;
    [discriminate|].
  intros E; apply orb_true_iff in E as [E|E]; apply orb_true_iff;
    [left; now apply Hw|right; now apply IH].
Qed.

Lemma count_if_failed_eq (rs1 rs2 : list Result) :
  Forall2 fewer_flags rs1 rs2 -> count_if failed rs1 = count_if failed rs2.
Proof.
  induction 1 as [|r1 r2 l1 l2 H _ IH]; simpl; [reflexivity|].
  now rewrite (fewer_flags_failed r1 r2 H), IH.
Qed.

Lemma count_if_flagged_le (rs1 rs2 : list Result) :
  Forall2 fewer_flags rs1 rs2 ->
  (count_if flagged rs2 <= count_if flagged rs1)%nat.
Proof.
  induction 1 as [|r1 r2 l1 l2 H _ IH]; simpl; [lia|].
  pose proof (fewer_flags_flagged r1 r2 H) as Hf.
  destruct (flagged r2); [rewrite Hf by reflexivity; lia|].
  destruct (flagged r1); lia.
Qed.

Section ThresholdProperties.

Variable World : Type.
Variable run : list string -> Z -> World -> RunOutcome * World.

Lemma check_vm_disk_threshold (t1 t2 : Z) (vm : VM) (st : State World) :
  t1 <= t2 ->
  snd (check_vm_disk run t1 vm st) = snd (check_vm_disk run t2 vm st)
  /\ fewer_flags (fst (check_vm_disk run t1 vm st))
       (fst (check_vm_disk run t2 vm st)).
Proof.
  intros Ht; unfold check_vm_disk.
  destruct (vm_host vm) as [host|];
    [|destruct (vm_name vm); simpl; repeat split; reflexivity].
  destruct (vm_name vm) as [n|]; destruct (Py.truthy host); simpl;
    try (repeat split; reflexivity);
    destruct (run _ 30 (world st)) as [[rc out err| |msg] w]; simpl;
    try (repeat split; reflexivity);
    destruct (rc =? 0); simpl; try (repeat split; reflexivity);
    pose proof (parse_output_fewer_flags t1 t2 out (stderr_log st) Ht) as Hf;
    assert (Hl : snd (parse_output t1 out (stderr_log st))
                 = snd (parse_output t2 out (stderr_log st)))
      by (now rewrite !parse_output_log);
    destruct (parse_output t1 out (stderr_log st)) as [d1 l1];
    destruct (parse_output t2 out (stderr_log st)) as [d2 l2];
    simpl in *; subst l2; repeat split; assumption.
Qed.

Lemma probe_seq_threshold (t1 t2 : Z) (vms : list VM) (st : State World) :
  t1 <= t2 ->
  snd (probe_seq run t1 vms st) = snd (probe_seq run t2 vms st)
  /\ Forall2 fewer_flags (fst (probe_seq run t1 vms st))
       (fst (probe_seq run t2 vms st)).
Proof.
  intros Ht; revert st; induction vms as [|vm rest IH]; intros st.
  - split; [reflexivity|constructor].
  - simpl.
    destruct (check_vm_disk_threshold t1 t2 vm st Ht) as [Hs Hr].
    destruct (check_vm_disk run t1 vm st) as [r1 s1].
    destruct (check_vm_disk run t2 vm st) as [r2 s2].
    simpl in Hs, Hr; subst s2.
    destruct (IH s1) as [Hs' Hr'].
    destruct (probe_seq run t1 rest s1) as [rs1 s1'].
    destruct (probe_seq run t2 rest s1) as [rs2 s2'].
    simpl in *; split; [assumption|now constructor].
Qed.

(** X10. Raising the threshold can only take flags away.  On the same
    records and the same outside world, the run at the higher threshold
    meets the same transport outcomes and prints the same warnings; its
    results differ from those of the run at the lower threshold at most
    by flags that are gone, so it has the same total and error count, no
    more warnings, and no higher exit status. *)
Theorem threshold_monotone (t1 t2 : Z) (vms : list VM) (st : State World) :
  t1 <= t2 ->
  let run1 := check_all_vms run t1 vms st in
  let run2 := check_all_vms run t2 vms st in
  snd run1 = snd run2
  /\ Forall2 fewer_flags (fst run1) (fst run2)
  /\ fst (fst (get_summary (fst run1))) = fst (fst (get_summary (fst run2)))
  /\ snd (get_summary (fst run1)) = snd (get_summary (fst run2))
  /\ snd (fst (get_summary (fst run2))) <= snd (fst (get_summary (fst run1)))
  /\ main_exit (fst run2) <= main_exit (fst run1).
Proof.
  intros Ht run1 run2; subst run1 run2.
  rewrite !check_all_vms_probe_seq.
  destruct (probe_seq_threshold t1 t2 vms st Ht) as [Hs Hr].
  split; [exact Hs|]; split; [exact Hr|].
  rewrite !get_summary_eq, !main_exit_eq; simpl.
  pose proof (count_if_failed_eq _ _ Hr) as He.
  pose proof (count_if_flagged_le _ _ Hr) as Hw.
  pose proof (Forall2_length Hr) as Hlen.
  rewrite Hlen, He; repeat split; [lia|].
  destruct (count_if failed (fst (probe_seq run t2 vms st))); simpl; [|lia].
  destruct (count_if flagged (fst (probe_seq run t2 vms st))),
           (count_if flagged (fst (probe_seq run t1 vms st))); simpl; lia.
Qed.

End ThresholdProperties.

Lemma threshold_monotone_witness :
  main_exit (fst (check_all_vms Demo.run 90 [Demo.vm1] Demo.start))
  <= main_exit (fst (check_all_vms Demo.run 80 [Demo.vm1] Demo.start)).
Proof.
  refine (proj2 (proj2 (proj2 (proj2 (proj2
            (threshold_monotone nat Demo.run 80 90 [Demo.vm1] Demo.start _)))))).
  lia.
Defined.

(** ** Further properties of the summary and of the exit status *)

(** X11. The counts of a summary are not negative, and warnings and errors
    together never exceed the total. *)
Theorem get_summary_bounds (results : list Result) :
  let '(total, warnings, errors) := get_summary results in
  0 <= warnings /\ 0 <= errors /\ warnings + errors <= total.
Proof.
  rewrite get_summary_eq.
  assert (H : (count_if flagged results + count_if failed results
               <= List.length results)%nat).
  { induction results as [|r rs IH]; simpl; [lia|].
    destruct r; simpl; [destruct (existsb warning disks)|]; lia. }
  lia.
Qed.

Lemma count_if_perm {A : Type} (p : A -> bool) (l1 l2 : list A) :
  Permutation l1 l2 -> count_if p l1 = count_if p l2.
Proof.
  induction 1 as [|x l1 l2 _ IH|x y l|l1 l2 l3 _ IH1 _ IH2]; simpl.
  - reflexivity.
  - now rewrite IH.
  - destruct (p x), (p y); reflexivity.
  - now rewrite IH1.
Qed.

(** X12. Summary and exit status do not depend on the order of the
    results. *)
Theorem summary_order_irrelevant (rs1 rs2 : list Result) :
  Permutation rs1 rs2 ->
  get_summary rs1 = get_summary rs2 /\ main_exit rs1 = main_exit rs2.
Proof.
  intros H; rewrite !get_summary_eq, !main_exit_eq.
  now rewrite (Permutation_length H), (count_if_perm flagged _ _ H),
    (count_if_perm failed _ _ H).
Qed.

Lemma summary_order_irrelevant_witness :
  main_exit [Failure "b" "h" "Connection timeout"; Success "a" "h" []]
  = main_exit [Success "a" "h" []; Failure "b" "h" "Connection timeout"].
Proof.
  apply (proj2 (summary_order_irrelevant
                  [Failure "b" "h" "Connection timeout"; Success "a" "h" []]
                  [Success "a" "h" []; Failure "b" "h" "Connection timeout"]
                  (perm_swap _ _ _))).
Defined.

(** X13. Two fleets put together: the counts add up, and the exit status
    is the larger of the two. *)
Theorem summary_of_app (rs1 rs2 : list Result) :
  let '(n1, w1, e1) := get_summary rs1 in
  let '(n2, w2, e2) := get_summary rs2 in
  get_summary (rs1 ++ rs2) = (n1 + n2, w1 + w2, e1 + e2)
  /\ main_exit (rs1 ++ rs2) = Z.max (main_exit rs1) (main_exit rs2).
Proof.
  rewrite !get_summary_eq, !main_exit_eq, !count_if_app, length_app.
  split; [f_equal; [f_equal|]; lia|].
  destruct (count_if failed rs1), (count_if failed rs2),
    (count_if flagged rs1), (count_if flagged rs2); reflexivity.
Qed.

Lemma count_if_zero_iff {A : Type} (p : A -> bool) (l : list A) :
  count_if p l = O <-> Forall (fun x => p x = false) l.
Proof.
  split; [|apply count_if_zero].
  induction l as [|x l IH]; simpl; [constructor|].
  destruct (p x) eqn:E; [discriminate|]; intros H; constructor; auto.
Qed.

Lemma count_if_pos_iff {A : Type} (p : A -> bool) (l : list A) :
  Exists (fun x => p x = true) l <-> count_if p l <> O.
Proof.
  split; [intros H; apply count_if_pos in H; lia|].
  induction l as [|x l IH]; simpl; [contradiction|].
  destruct (p x) eqn:E; intros H.
  - now apply Exists_cons_hd.
  - apply Exists_cons_tl, IH, H.
Qed.

Lemma main_exit_iff (results : list Result) :
  (main_exit results = 0
   <-> Forall (fun r => failed r = false /\ flagged r = false) results)
  /\ (main_exit results = 2 <-> Exists (fun r => failed r = true) results)
  /\ (main_exit results = 1
      <-> Forall (fun r => failed r = false) results
          /\ Exists (fun r => flagged r = true) results)
  /\ (main_exit results = 0 \/ main_exit results = 1 \/ main_exit results = 2).
Proof.
  rewrite main_exit_eq.
  assert (Hboth : Forall (fun r => failed r = false /\ flagged r = false) results
                  <-> count_if failed results = O /\ count_if flagged results = O).
  { rewrite !count_if_zero_iff, !Forall_forall; split.
    - intros H; split; intros x Hx; now apply H.
    - intros [H1 H2] x Hx; split; auto. }
  rewrite Hboth, !count_if_pos_iff, <- count_if_zero_iff.
  destruct (count_if failed results), (count_if flagged results); simpl;
    intuition (try lia; try discriminate).
Qed.

(** X14. What an exit status tells: 0 exactly when every result is a
    success without a flagged entry, 2 exactly when some result is a
    failure, 1 exactly when none is a failure and some success has a
    flagged entry; there is no other status. *)
Theorem main_exit_meaning (results : list Result) :
  (main_exit results = 0
   <-> Forall (fun r => failed r = false /\ flagged r = false) results)
  /\ (main_exit results = 2 <-> Exists (fun r => failed r = true) results)
  /\ (main_exit results = 1
      <-> Forall (fun r => failed r = false) results
          /\ Exists (fun r => flagged r = true) results)
  /\ (main_exit results = 0 \/ main_exit results = 1 \/ main_exit results = 2).
Proof. apply main_exit_iff. Qed.

(** ** The text report *)

Lemma text_disk_fold (disks : list Disk) (output : list string) :
  fold_left text_disk disks output
  = (output ++ flat_map disk_block disks)%list.
Proof.
  revert output; induction disks as [|d ds IH]; intros output; simpl.
  - now rewrite app_nil_r.
  - rewrite IH; unfold text_disk, disk_block.
    rewrite <- !app_assoc; reflexivity.
Qed.

Lemma text_result_block (output : list string) (r : Result) :
  text_result output r = (output ++ result_block r)%list.
Proof.
  destruct r as [name host disks|name host error]; unfold text_result; simpl.
  - rewrite text_disk_fold, <- !app_assoc; reflexivity.
  - rewrite <- !app_assoc; reflexivity.
Qed.

(** The list of lines of the report, block by block. *)
Lemma text_lines_blocks (results : list Result) :
  text_lines results = (banner ++ flat_map result_block results)%list.
Proof.
  unfold text_lines; fold banner; generalize banner as output.
  induction results as [|r rs IH]; intros output; simpl.
  - now rewrite app_nil_r.
  - now rewrite IH, text_result_block, <- app_assoc.
Qed.

Lemma one_line_app (a b : string) :
  one_line (a ++ b) = one_line a && one_line b.
Proof.
  unfold one_line; induction a as [|c a IH]; simpl; [reflexivity|].
  now rewrite IH, andb_assoc.
Qed.

Lemma one_line_uint (d : Decimal.uint) :
  one_line (NilEmpty.string_of_uint d) = true.
Proof. induction d; simpl; try reflexivity; exact IHd. Qed.

Lemma one_line_nz_uint (d : Decimal.uint) :
  one_line (NilZero.string_of_uint d) = true.
Proof. destruct d; try reflexivity; apply one_line_uint. Qed.

Lemma one_line_str_of_int (n : Z) : one_line (Py.str_of_int n) = true.
Proof.
  unfold Py.str_of_int, NilZero.string_of_int.
  destruct (Z.to_int n) as [d|d];
    [apply one_line_nz_uint|exact (one_line_nz_uint d)].
Qed.

Lemma disk_block_one_line (d : Disk) :
  disk_one_line d = true -> forallb one_line (disk_block d) = true.
Proof.
  unfold disk_one_line, disk_block; intros H.
  repeat (apply andb_true_iff in H as [H ?]).
  cbn [forallb]; rewrite !one_line_app, one_line_str_of_int.
  destruct (warning d); cbn [one_line all_chars];
    repeat (apply andb_true_iff; split); try assumption; reflexivity.
Qed.

Lemma result_block_one_line (r : Result) :
  result_one_line r = true -> forallb one_line (result_block r) = true.
Proof.
  destruct r as [name host disks|name host error];
    cbn [result_one_line result_block]; intros H.
  - apply andb_true_iff in H as [H Hd]; apply andb_true_iff in H as [Hn Hh].
    rewrite !forallb_app; cbn [forallb].
    rewrite !one_line_app, Hn, Hh.
    apply andb_true_iff; split; [reflexivity|].
    apply andb_true_iff; split; [|reflexivity].
    induction disks as [|d ds IH]; [reflexivity|].
    cbn [forallb] in Hd; apply andb_true_iff in Hd as [Hd Hds].
    cbn [flat_map]; rewrite forallb_app, (disk_block_one_line d Hd).
    now apply IH.
  - apply andb_true_iff in H as [H He]; apply andb_true_iff in H as [Hn Hh].
    cbn [forallb]; rewrite !one_line_app, Hn, Hh, He; reflexivity.
Qed.

Lemma text_lines_one_line (results : list Result) :
  forallb result_one_line results = true ->
  forallb one_line (text_lines results) = true.
Proof.
  intros H; rewrite text_lines_blocks, forallb_app.
  apply andb_true_iff; split; [reflexivity|].
  induction results as [|r rs IH]; [reflexivity|].
  simpl in H; apply andb_true_iff in H as [Hr Hrs].
  cbn [flat_map]; rewrite forallb_app, (result_block_one_line r Hr).
  now apply IH.
Qed.

Lemma report_lines (results : list Result) :
  forallb result_one_line results = true ->
  Py.split_lines (format_output_text results)
  = (banner ++ flat_map result_block results)%list.
Proof.
  intros H; unfold format_output_text.
  rewrite split_lines_join.
  - apply text_lines_blocks.
  - rewrite text_lines_blocks; discriminate.
  - now apply text_lines_one_line.
Qed.

(** X15. The text report, line by line.  When no name, host, error message
    or disk field holds a line feed, the lines of the report are the four
    lines of the banner followed, in the order of the results, by one block
    for each result: its heading, a rule, then the error line of a failure
    or four lines for each disk of a success, then an empty line. *)
Theorem format_output_text_layout (results : list Result) :
  forallb result_one_line results = true ->
  Py.split_lines (format_output_text results)
  = (banner ++ flat_map result_block results)%list.
Proof. apply report_lines. Qed.

Lemma format_output_text_layout_witness :
  Py.split_lines
    (format_output_text
       [Success "Test VM" "192.168.1.10"
          [mkDisk "/dev/sda1" "100G" "45G" "50G" 47 "/" false]])
  = (banner
     ++ ["VM: Test VM (192.168.1.10)"; str_mul "-" 80;
         "  ✓ OK /"; "    Device: /dev/sda1";
         "    Size: 100G, Used: 45G, Available: 50G"; "    Usage: 47%";
         ""])%list.
Proof.
  exact (format_output_text_layout
           [Success "Test VM" "192.168.1.10"
              [mkDisk "/dev/sda1" "100G" "45G" "50G" 47 "/" false]] eq_refl).
Defined.

Lemma disk_block_marks (d : Disk) :
  count_if (String.prefix warning_prefix) (disk_block d)
  = if warning d then 1%nat else 0%nat.
Proof.
  unfold disk_block; destruct (warning d); cbn; [|reflexivity].
  now destruct (mount d).
Qed.

Lemma result_block_marks (r : Result) :
  count_if (String.prefix warning_prefix) (result_block r)
  = List.length (filter warning (result_disks r)).
Proof.
  destruct r as [name host disks|name host error]; [|reflexivity].
  cbn [result_block result_disks].
  rewrite !count_if_app.
  replace (count_if (String.prefix warning_prefix)
             [("VM: " ++ name ++ " (" ++ host ++ ")")%string; str_mul "-" 80])
    with 0%nat by reflexivity.
  replace (count_if (String.prefix warning_prefix) [""]) with 0%nat
    by reflexivity.
  rewrite Nat.add_0_r; cbn [Nat.add].
  induction disks as [|d ds IH]; [reflexivity|].
  cbn [flat_map filter]; rewrite count_if_app, disk_block_marks, IH.
  destruct (warning d); reflexivity.
Qed.

(** X16. The flagged disks can be counted in the text report: under the
    same condition, the lines that begin with the warning mark are as many
    as the flagged entries of the results, and there is none exactly when
    the warning count of the summary is 0. *)
Theorem format_output_text_marks (results : list Result) :
  forallb result_one_line results = true ->
  let marks :=
    count_if (String.prefix warning_prefix)
      (Py.split_lines (format_output_text results)) in
  marks
  = List.length (flat_map (fun r => filter warning (result_disks r)) results)
  /\ (marks = O <-> snd (fst (get_summary results)) = 0).
Proof.
  intros H marks; subst marks.
  rewrite (report_lines results H), count_if_app.
  replace (count_if (String.prefix warning_prefix) banner) with 0%nat
    by reflexivity.
  cbn [Nat.add]; rewrite get_summary_eq; cbn [fst snd]; clear H.
  assert (E : count_if (String.prefix warning_prefix)
                (flat_map result_block results)
              = List.length
                  (flat_map (fun r => filter warning (result_disks r)) results)).
  { induction results as [|r rs IH]; [reflexivity|].
    cbn [flat_map]; now rewrite count_if_app, length_app, result_block_marks, IH. }
  split; [exact E|].
  rewrite E; clear E.
  induction results as [|r rs IH]; [simpl; split; reflexivity|].
  cbn [flat_map count_if]; rewrite length_app.
  assert (F : flagged r = false
              <-> List.length (filter warning (result_disks r)) = O).
  { destruct r as [name host disks|name host error]; simpl;
      [|split; reflexivity].
    induction disks as [|d ds IHd]; simpl; [split; reflexivity|].
    destruct (warning d); simpl; [split; discriminate|exact IHd]. }
  destruct (flagged r).
  - split; [|lia].
    intros E; exfalso.
    assert (List.length (filter warning (result_disks r)) = O) by lia.
    destruct F as [_ F]; discriminate (F H).
  - destruct F as [F _]; rewrite (F eq_refl); exact IH.
Qed.

Lemma format_output_text_marks_witness :
  count_if (String.prefix warning_prefix)
    (Py.split_lines
       (format_output_text
          [Success "a" "h" [mkDisk "/dev/sda2" "50G" "42G" "5G" 89 "/var" true];
           Failure "b" "h" "Connection timeout"]))
  = 1%nat.
Proof.
  exact (proj1 (format_output_text_marks
                  [Success "a" "h"
                     [mkDisk "/dev/sda2" "50G" "42G" "5G" 89 "/var" true];
                   Failure "b" "h" "Connection timeout"] eq_refl)).
Defined.

(** ** The entry point *)

Section MainProperties.

Variable World : Type.
Variable run : list string -> Z -> World -> RunOutcome * World.
Variable read_config : string -> World -> ConfigOutcome * World.
Variable json_dumps : list Result -> string.

Lemma threshold_check (t : Z) :
  negb ((0 <? t) && (t <=? 100)) = false <-> 0 < t <= 100.
Proof.
  rewrite negb_false_iff, andb_true_iff, Z.ltb_lt, Z.leb_le; tauto.
Qed.

(** X17. A threshold outside 1..100 ends the run at once with status 1:
    one line on stderr, nothing on stdout, and the outside world is left
    as it was: the configuration is not read and no host is probed. *)
Theorem main_invalid_threshold (args : Args) (st : State World) :
  arg_threshold args <= 0 \/ 100 < arg_threshold args ->
  main run read_config json_dumps args st
  = {| exit_status := 1;
       stdout_log := [];
       final_state :=
         {| world := world st;
            stderr_log :=
              (stderr_log st
               ++ ["Error: Threshold must be between 1 and 100"])%list |} |}.
Proof.
  intros H; unfold main.
  destruct (negb _) eqn:E; [reflexivity|].
  apply threshold_check in E; lia.
Qed.

Lemma main_config_exit (args : Args) (st : State World) :
  0 < arg_threshold args <= 100 ->
  (forall vms,
      fst (read_config (arg_config args) (world st)) <> ConfigLoaded vms) ->
  exit_status (main run read_config json_dumps args st) = 1.
Proof.
  intros Ht Hc; unfold main, load_config.
  apply threshold_check in Ht; rewrite Ht.
  destruct (read_config (arg_config args) (world st)) as [[vms| |msg] w];
    simpl in *; [now contradiction (Hc vms)|reflexivity|reflexivity].
Qed.

(** X18. With a threshold in 1..100, a configuration file that is missing
    or is not valid YAML ends the run with status 1: nothing on stdout, one
    line on stderr that names the file or carries the parser's message, and
    no host is probed (the world is the one the read left). *)
Theorem main_config_error (args : Args) (st : State World) :
  0 < arg_threshold args <= 100 ->
  let outcome := fst (read_config (arg_config args) (world st)) in
  let p := main run read_config json_dumps args st in
  (outcome = ConfigNotFound ->
   exit_status p = 1 /\ stdout_log p = []
   /\ world (final_state p) = snd (read_config (arg_config args) (world st))
   /\ stderr_log (final_state p)
      = (stderr_log st
         ++ [("Error: Configuration file '" ++ arg_config args
              ++ "' not found.")%string])%list)
  /\ (forall msg,
        outcome = ConfigYamlError msg ->
        exit_status p = 1 /\ stdout_log p = []
        /\ world (final_state p)
           = snd (read_config (arg_config args) (world st))
        /\ stderr_log (final_state p)
           = (stderr_log st
              ++ [("Error parsing YAML configuration: " ++ msg)%string])%list).
Proof.
  intros Ht outcome p; subst outcome p; unfold main, load_config.
  apply threshold_check in Ht; rewrite Ht.
  destruct (read_config (arg_config args) (world st)) as [o w]; simpl.
  split; [intros ->|intros msg ->]; repeat split.
Qed.

(** The run of [main] past the two checks. *)
Lemma main_loaded (args : Args) (st : State World) (vms : option (list VM)) :
  0 < arg_threshold args <= 100 ->
  fst (read_config (arg_config args) (world st)) = ConfigLoaded vms ->
  let st0 := {| world := snd (read_config (arg_config args) (world st));
                stderr_log := stderr_log st |} in
  let fleet := check_all_vms run (arg_threshold args) (dict_get vms []) st0 in
  main run read_config json_dumps args st
  = {| exit_status := main_exit (fst fleet);
       stdout_log :=
         [match arg_format args with
          | FormatJson => json_dumps (fst fleet)
          | FormatText => format_output_text (fst fleet)
          end];
       final_state := snd fleet |}.
Proof.
  intros Ht Hc st0 fleet; subst st0 fleet; unfold main, load_config.
  apply threshold_check in Ht; rewrite Ht.
  destruct (read_config (arg_config args) (world st)) as [o w]; simpl in *.
  subst o. simpl.
  destruct (check_all_vms run (arg_threshold args) (dict_get vms []) _);
    reflexivity.
Qed.

(** X19. A configuration without hosts (no ['vms'] key, or an empty list)
    is no error: the run exits with status 0, prints the bare banner in
    text format, prints nothing on stderr and probes nothing. *)
Theorem main_empty_fleet (args : Args) (st : State World)
    (vms : option (list VM)) :
  0 < arg_threshold args <= 100 ->
  fst (read_config (arg_config args) (world st)) = ConfigLoaded vms ->
  vms = None \/ vms = Some [] ->
  let p := main run read_config json_dumps args st in
  exit_status p = 0
  /\ (arg_format args = FormatText ->
      stdout_log p = [Py.join_lines banner])
  /\ final_state p
     = {| world := snd (read_config (arg_config args) (world st));
          stderr_log := stderr_log st |}.
Proof.
  intros Ht Hc Hv p; subst p.
  rewrite (main_loaded args st vms Ht Hc); cbv zeta.
  assert (E : dict_get vms [] = []) by (destruct Hv; subst; reflexivity).
  rewrite E; simpl; repeat split.
  intros ->; reflexivity.
Qed.


(** X21. Once the command line is parsed, [main] ends with status 0, 1 or
    2.  It is 2 only after a probe failed, and 0 only when the threshold
    was accepted, the configuration was loaded, and every probe succeeded
    without a flagged entry; 1 covers the rejected threshold and the
    unreadable configuration as well as the warnings. *)
Theorem main_exit_status (args : Args) (st : State World) :
  let p := main run read_config json_dumps args st in
  (exit_status p = 0 \/ exit_status p = 1 \/ exit_status p = 2)
  /\ (exit_status p <> 1 ->
      0 < arg_threshold args <= 100
      /\ exists vms,
           fst (read_config (arg_config args) (world st)) = ConfigLoaded vms
           /\ let results :=
                fst (check_all_vms run (arg_threshold args) (dict_get vms [])
                       {| world := snd (read_config (arg_config args)
                                          (world st));
                          stderr_log := stderr_log st |}) in
              exit_status p = main_exit results
              /\ (exit_status p = 2 ->
                  Exists (fun r => failed r = true) results)
              /\ (exit_status p = 0 ->
                  Forall (fun r => failed r = false /\ flagged r = false)
                    results)).
Proof.
  intros p; subst p.
  destruct (negb ((0 <? arg_threshold args) && (arg_threshold args <=? 100)))
    eqn:Et.
  - unfold main; rewrite Et; simpl; split; [tauto|congruence].
  - apply threshold_check in Et.
    destruct (fst (read_config (arg_config args) (world st))) as [vms| |msg]
      eqn:Ec.
    + rewrite (main_loaded args st vms Et Ec); cbv zeta; cbn [exit_status].
      pose proof (main_exit_iff
                    (fst (check_all_vms run (arg_threshold args)
                            (dict_get vms [])
                            {| world := snd (read_config (arg_config args)
                                               (world st));
                               stderr_log := stderr_log st |})))
        as (H0 & H2 & _ & Hr).
      split; [exact Hr|].
      intros _; split; [exact Et|]; exists vms; split; [reflexivity|].
      split; [reflexivity|]; split; [apply H2|apply H0].
    + rewrite (main_config_exit args st Et) by (intros vms; congruence).
      split; [tauto|congruence].
    + rewrite (main_config_exit args st Et) by (intros vms; congruence).
      split; [tauto|congruence].
Qed.

End MainProperties.

Lemma main_invalid_threshold_witness :
  exit_status
    (main Demo.run (fun _ w => (ConfigNotFound, w)) (fun _ => "")
       (mkArgs "vms.yml" 0 FormatText) Demo.start) = 1.
Proof.
  rewrite (main_invalid_threshold nat Demo.run
             (fun _ w => (ConfigNotFound, w)) (fun _ => "")
             (mkArgs "vms.yml" 0 FormatText) Demo.start);
    [reflexivity|left; simpl; lia].
Defined.

Lemma main_config_error_witness :
  stderr_log
    (final_state
       (main Demo.run (fun _ w => (ConfigNotFound, w)) (fun _ => "")
          (mkArgs "vms.yml" 80 FormatText) Demo.start))
  = ["Error: Configuration file 'vms.yml' not found."].
Proof.
  assert (Ht : 0 < arg_threshold (mkArgs "vms.yml" 80 FormatText) <= 100)
    by (simpl; lia).
  exact (proj2 (proj2 (proj2
           (proj1 (main_config_error nat Demo.run
                     (fun _ w => (ConfigNotFound, w)) (fun _ => "")
                     (mkArgs "vms.yml" 80 FormatText) Demo.start Ht)
              eq_refl)))).
Defined.

Lemma main_empty_fleet_witness :
  exit_status
    (main Demo.run (fun _ w => (ConfigLoaded None, w)) (fun _ => "")
       (mkArgs "vms.yml" 80 FormatJson) Demo.start) = 0.
Proof.
  assert (Ht : 0 < arg_threshold (mkArgs "vms.yml" 80 FormatJson) <= 100)
    by (simpl; lia).
  exact (proj1 (main_empty_fleet nat Demo.run
                  (fun _ w => (ConfigLoaded None, w)) (fun _ => "")
                  (mkArgs "vms.yml" 80 FormatJson) Demo.start None
                  Ht eq_refl (or_introl eq_refl))).
Defined.

(** The scenario of two hosts, the first over the threshold on one disk,
    the second timing out, run through [main]. *)
Example main_scenario :
  exit_status
    (main Demo.run (fun _ w => (ConfigLoaded (Some [Demo.vm1; Demo.vm2]), w))
       (fun _ => "") (mkArgs "vms.yml" 80 FormatText) Demo.start) = 2.
Proof. reflexivity. Qed.
